(** * Garage door controller: the task coordinator of [code.py]

    A shallow embedding of the CircuitPython program [code.py] and of its
    configuration [config.py].  Every coroutine of the program is cut at its
    [await] points into segments; a segment is a computation in a small
    monad that threads the shared objects ([garage_state], the relay pin),
    logs what the segment does to the outside world, and ends normally, with
    a Python exception, or with the device restarted by
    [microcontroller.reset()].  What the surroundings answer (clock, sensors,
    MQTT client, time service) is an explicit input of each segment. *)

From Stdlib Require Import Bool List Ascii String ZArith QArith Lia Lqa SpecFloat.
Import ListNotations.

Local Open Scope Z_scope.

(** ** Numbers

    [time.monotonic()] and the sensor readings are floats; a float is taken
    as the rational it stands for, which makes the comparisons of the
    program exact.  The sum of two floats is rounded as the Python running
    the program rounds it: see [float_add] below. *)

Definition Qltb (x y : Q) : bool := negb (Qle_bool y x).

(** ** Python values and exceptions *)

(** The exceptions the program can meet.  [NameError] is what reading a
    local variable before its assignment raises ([UnboundLocalError] is its
    subclass). *)
Inductive Exn : Type :=
| MMQTTException
| OSError
| RuntimeError
| NameError
| TypeError
| KeyError
| ValueError.

(** What [garage_state.door_status] can hold: [None] at start, the strings
    the position monitor writes, and the coroutine object that a call of an
    [async def] function returns when it is not awaited. *)
Inductive PyVal : Type :=
| PyNone
| PyStr (s : string)
| PyCoroutine (fn : string).

(** [a == b].  A coroutine object is equal to itself only; the program
    never compares two of them. *)
Definition py_eq (a b : PyVal) : bool :=
  match a, b with
  | PyNone, PyNone => true
  | PyStr s, PyStr t => String.eqb s t
  | _, _ => false
  end.

(** ** config.py *)

Record Config : Type := {
  SENSOR_UPDATE_INTERVAL : Z;
  RTC_UPDATE_INTERVAL : Z;
  DOOR_CLOSE_DELAY : Z;
  MOTION_TIMEOUT : Z;
  DOOR_DISTANCE : Z;
  GARAGE_CLOSE_AFTER : Z;
  GARAGE_CLOSE_BEFORE : Z
}.

Definition config : Config := {|
  SENSOR_UPDATE_INTERVAL := 60;
  RTC_UPDATE_INTERVAL := 43200;
  DOOR_CLOSE_DELAY := 12;
  MOTION_TIMEOUT := 300;
  DOOR_DISTANCE := 90;
  GARAGE_CLOSE_AFTER := 20;
  GARAGE_CLOSE_BEFORE := 7
|}.

(** ** Shared objects *)

(** [class Garage_state]. *)
Record Garage_state : Type := {
  door_error : bool;
  motion : option bool;
  door_status : PyVal;
  motion_timeout : Q;
  pause_door_check : bool
}.

(** [Garage_state.__init__]. *)
Definition Garage_state_init : Garage_state := {|
  door_error := false;
  motion := None;
  door_status := PyNone;
  motion_timeout := 0%Q;
  pause_door_check := false
|}.

(** The module-level objects the tasks share: [garage_state] and the value
    of the [relay] pin. *)
Record World : Type := {
  garage_state : Garage_state;
  relay_value : bool
}.

(** [relay.switch_to_output(False)] and [garage_state = Garage_state()]. *)
Definition World_init : World := {|
  garage_state := Garage_state_init;
  relay_value := false
|}.

(** ** Messages and the log of a segment *)

(** [time.struct_time], the nine fields in order. *)
Record struct_time : Type := {
  tm_year : Z; tm_mon : Z; tm_mday : Z;
  tm_hour : Z; tm_min : Z; tm_sec : Z;
  tm_wday : Z; tm_yday : Z; tm_isdst : bool
}.

(** A published message.  The JSON texts are kept as the values they are
    built from; [PSnapshot] is [garage_state.json]. *)
Inductive Payload : Type :=
| PSnapshot (status : PyVal) (error : bool) (mot : option bool)
| PEnvironment (temperature humidity light : Q)
| PSystem (reset_reason : string) (time : Q) (ip_address : option string)
    (board_id : string)
| PText (s : string).

Inductive ClientOp : Type :=
| IsConnected
| Reconnect
| Publish (topic : string) (msg : Payload)
| Loop.

Inductive Coroutine : Type :=
| activate_opener_co.

(** What a segment does that is seen outside the shared objects.
    [EvPublishToMqtt] marks the entry into [publish_to_mqtt]; [EvClient]
    is one call on [mqtt_client] with the exception it raised, if any. *)
Inductive Event : Type :=
| EvPublishToMqtt (topic : string) (msg : Payload)
| EvClient (op : ClientOp) (raised : option Exn)
| EvReset
| EvCreateTask (co : Coroutine)
| EvHttpGet
| EvRtcSet (t : struct_time).

(** ** The monad of a segment *)

(** How a computation ends: a value, an exception on its way up, or the
    device restarted: [microcontroller.reset()] does not return. *)
Inductive Res (A : Type) : Type :=
| Ret (a : A)
| Exc (e : Exn)
| Halt.

Arguments Ret {A} a.
Arguments Exc {A} e.
Arguments Halt {A}.

Record Out (A : Type) : Type := mkOut {
  res : Res A;
  final : World;
  events : list Event
}.

Arguments mkOut {A} res final events.
Arguments res {A} o.
Arguments final {A} o.
Arguments events {A} o.

Definition M (A : Type) : Type := World -> Out A.

Definition ret {A : Type} (a : A) : M A :=
  fun w => mkOut (Ret a) w [].

Definition bind {A B : Type} (m : M A) (k : A -> M B) : M B :=
  fun w =>
    let o := m w in
    match res o with
    | Ret a =>
        let o' := k a (final o) in
        mkOut (res o') (final o') (events o ++ events o')
    | Exc e => mkOut (Exc e) (final o) (events o)
    | Halt => mkOut Halt (final o) (events o)
    end.

Declare Scope py_scope.
Delimit Scope py_scope with py.
Notation "x <- m ;; k" := (bind m (fun x => k))
  (at level 61, m at next level, right associativity) : py_scope.
Notation "m ;; k" := (bind m (fun _ => k))
  (at level 61, right associativity) : py_scope.
Local Open Scope py_scope.

Definition raise {A : Type} (e : Exn) : M A :=
  fun w => mkOut (Exc e) w [].

Definition emit (e : Event) : M unit :=
  fun w => mkOut (Ret tt) w [e].

(** [microcontroller.reset()]. *)
Definition reset {A : Type} : M A :=
  fun w => mkOut Halt w [EvReset].

Definition get : M Garage_state :=
  fun w => mkOut (Ret (garage_state w)) w [].

Definition put (g : Garage_state) : M unit :=
  fun w => mkOut (Ret tt) {| garage_state := g; relay_value := relay_value w |} [].

Definition set_relay (v : bool) : M unit :=
  fun w => mkOut (Ret tt) {| garage_state := garage_state w; relay_value := v |} [].

(** [try: body  except ...: handler].  [handler e] is [None] when no
    [except] clause matches [e]. *)
Definition try_except {A : Type} (body : M A) (handler : Exn -> option (M A)) : M A :=
  fun w =>
    let o := body w in
    match res o with
    | Exc e =>
        match handler e with
        | Some h =>
            let o' := h (final o) in
            mkOut (res o') (final o') (events o ++ events o')
        | None => o
        end
    | _ => o
    end.

(** [try: body  finally: fin].  The [finally] block runs when the body
    returned or raised; a pending exception goes on after it, unless the
    block itself raises.  After a restart of the device nothing runs. *)
Definition try_finally {A : Type} (body : M A) (fin : M unit) : M A :=
  fun w =>
    let o := body w in
    match res o with
    | Halt => o
    | r =>
        let o' := fin (final o) in
        mkOut (match res o' with
               | Ret _ => r
               | Exc e' => Exc e'
               | Halt => Halt
               end) (final o') (events o ++ events o')
    end.

(** Assignments to the attributes of [garage_state]. *)
Definition set_door_error (b : bool) : M unit :=
  g <- get ;;
  put {| door_error := b; motion := motion g; door_status := door_status g;
         motion_timeout := motion_timeout g; pause_door_check := pause_door_check g |}.

Definition set_motion (m : option bool) : M unit :=
  g <- get ;;
  put {| door_error := door_error g; motion := m; door_status := door_status g;
         motion_timeout := motion_timeout g; pause_door_check := pause_door_check g |}.

Definition set_door_status (v : PyVal) : M unit :=
  g <- get ;;
  put {| door_error := door_error g; motion := motion g; door_status := v;
         motion_timeout := motion_timeout g; pause_door_check := pause_door_check g |}.

Definition set_motion_timeout (t : Q) : M unit :=
  g <- get ;;
  put {| door_error := door_error g; motion := motion g; door_status := door_status g;
         motion_timeout := t; pause_door_check := pause_door_check g |}.

Definition set_pause_door_check (b : bool) : M unit :=
  g <- get ;;
  put {| door_error := door_error g; motion := motion g; door_status := door_status g;
         motion_timeout := motion_timeout g; pause_door_check := b |}.

(** ** The MQTT client *)

(** What [mqtt_client] answers to the calls of one [publish_to_mqtt] or of
    one turn of [mqtt_client_loop]: for each call the exception it raises,
    [None] when it returns. *)
Record Link : Type := {
  is_connected_r : option Exn;
  reconnect_r : option Exn;
  final_r : option Exn
}.

Definition healthy : Link :=
  {| is_connected_r := None; reconnect_r := None; final_r := None |}.

Definition client (op : ClientOp) (answer : option Exn) : M unit :=
  emit (EvClient op answer) ;;
  match answer with
  | None => ret tt
  | Some e => raise e
  end.

(** [except (OSError, MQTT.MMQTTException): microcontroller.reset()]. *)
Definition reset_on_link_error (e : Exn) : option (M unit) :=
  match e with
  | OSError | MMQTTException => Some reset
  | _ => None
  end.

(** [publish_to_mqtt(topic, message)]. *)
Definition publish_to_mqtt (lk : Link) (topic : string) (message : Payload) : M unit :=
  emit (EvPublishToMqtt topic message) ;;
  try_finally
    (try_except (client IsConnected (is_connected_r lk))
       (fun e =>
          match e with
          | MMQTTException =>
              Some (try_except (client Reconnect (reconnect_r lk)) reset_on_link_error)
          | OSError => Some reset
          | _ => None
          end))
    (try_except (client (Publish topic message) (final_r lk)) reset_on_link_error).

(** ** What the program is given *)

(** [secrets.py] is not part of the sources, and some builtins behave as
    the Python running the program decides: they are parameters.
    [json_dumps_instance] is [json.dumps] applied to an instance of a plain
    class: CPython raises [TypeError] ([None] here), MicroPython and
    CircuitPython print the instance ([Some] text).
    [json_prints_coroutine] and [json_prints_address] say whether
    [json.dumps] prints a coroutine object and the address object of the
    radio where it meets one in a dictionary, as MicroPython and
    CircuitPython do, or raises [TypeError], as CPython does.
    [int_of_str] is [int] on a string, [None] standing for [ValueError].
    [float_add] is [+] on two floats: the sum, rounded to a float. *)
Record Platform : Type := {
  secrets_mqtt_topic : string;
  json_dumps_instance : option string;
  json_prints_coroutine : bool;
  json_prints_address : bool;
  int_of_str : string -> option Z;
  float_add : Q -> Q -> Q
}.

(** A reading of [hcsr04.distance]; the driver raises [RuntimeError] when
    the echo times out. *)
Inductive Reading : Type :=
| Measured (d : Q)
| TimedOut.

(** The JSON object the time service answers with. *)
Record Response : Type := {
  currentDateTime : string;
  dayOfTheWeek : string;
  isDayLightSavingsTime : bool
}.

(** A message handed to the [on_message] callback during
    [mqtt_client.loop()], with the answers of the client to the calls the
    callback makes. *)
Record Delivery : Type := {
  d_topic : string;
  d_message : string;
  d_link : Link
}.

(** The answers of the surroundings to one segment: [now_trigger] is
    [time.monotonic()] on line 71, [now] the other reading of the clock a
    segment makes, [rtc_hour] is [rtc.datetime.tm_hour].
    [wifi.radio.ipv4_address] is an address object, or [None] while the
    radio has no address. *)
Record Inputs : Type := {
  pir_value : bool;
  now_trigger : Q;
  now : Q;
  distance : Reading;
  rtc_hour : Z;
  link : Link;
  inbound : list Delivery;
  http_response : Exn + Response;
  aht20_temperature : Q;
  aht20_relative_humidity : Q;
  bh1750_lux : Q;
  cpu_reset_reason : string;
  ipv4_address : option string;
  board_board_id : string
}.

(** Where a suspended task goes on. *)
Inductive TaskPc : Type :=
| MotionLoop
| DoorStart
| DoorLoop
| SensorLoop
| SystemLoop
| RtcStart
| PolicyStart
| PolicyAfterSleep
| MqttLoop
| PublishLoop
| OpenerStart
| OpenerPulse
| OpenerSettle.

(** How a segment ends when nothing is raised: at [await asyncio.sleep(secs)],
    to go on at the given place, or at the end of the coroutine. *)
Inductive Next : Type :=
| Sleep (secs : Q) (goes_on : TaskPc)
| Finished.

Definition read_distance (r : Reading) : M Q :=
  match r with
  | Measured d => ret d
  | TimedOut => raise RuntimeError
  end.

(** Reading a local variable: [None] is a variable not assigned yet. *)
Definition load_local {A : Type} (v : option A) : M A :=
  match v with
  | Some a => ret a
  | None => raise NameError
  end.

Fixpoint dict_get (k : string) (d : list (string * Z)) : option Z :=
  match d with
  | [] => None
  | (k', v) :: d' => if String.eqb k k' then Some v else dict_get k d'
  end.

Definition day_lookup : list (string * Z) :=
  [ ("Monday", 0); ("Tuesday", 1); ("Wednesday", 2); ("Thursday", 3);
    ("Friday", 4); ("Saturday", 5); ("Sunday", 6) ]%string.

(** ** Sample surroundings, for the concrete runs *)

(** [int] on an ASCII string, as CPython reads it in base 10: blanks around
    the number are dropped, one sign may come first, and the digits may be
    grouped by single underscores.  [None] stands for [ValueError]. *)
Definition is_space (a : ascii) : bool :=
  let n := Z.of_nat (nat_of_ascii a) in
  ((9 <=? n) && (n <=? 13)) || (n =? 32).

Definition digit_of (a : ascii) : option Z :=
  let n := Z.of_nat (nat_of_ascii a) in
  if (48 <=? n) && (n <=? 57) then Some (n - 48) else None.

Fixpoint lstrip (l : list ascii) : list ascii :=
  match l with
  | a :: l' => if is_space a then lstrip l' else l
  | [] => []
  end.

Definition strip (l : list ascii) : list ascii :=
  rev (lstrip (rev (lstrip l))).

Fixpoint digits (acc : Z) (l : list ascii) : option Z :=
  match l with
  | [] => Some acc
  | a :: l' =>
      match digit_of a with
      | Some d => digits (10 * acc + d) l'
      | None =>
          if Ascii.eqb a "_" then
            match l' with
            | b :: _ => match digit_of b with
                        | Some _ => digits acc l'
                        | None => None
                        end
            | [] => None
            end
          else None
      end
  end.

Definition unsigned (l : list ascii) : option Z :=
  match l with
  | a :: _ => match digit_of a with
              | Some _ => digits 0 l
              | None => None
              end
  | [] => None
  end.

Definition decimal (s : string) : option Z :=
  match strip (list_ascii_of_string s) with
  | a :: l =>
      if Ascii.eqb a "-" then option_map Z.opp (unsigned l)
      else if Ascii.eqb a "+" then unsigned l
      else unsigned (a :: l)
  | [] => None
  end.

(** [+] on two floats.  A float is the rational it stands for; the sum is
    computed in the format with [prec] bits of precision and exponents
    below [emax], rounded to the nearest, ties to even.  A rational that
    is no float of the format is rounded to one first.  A sum beyond the
    largest float, which the readings of a clock do not reach, has no
    rational to stand for it and is given as 0. *)
Definition float_of_Q (prec emax : Z) (q : Q) : spec_float :=
  let k := Z.log2 (Zpos (Qden q)) in
  if Zpos (Qden q) =? 2 ^ k
  then binary_normalize prec emax (Qnum q) (- k) false
  else SFdiv prec emax
         (binary_normalize prec emax (Qnum q) 0 false)
         (binary_normalize prec emax (Zpos (Qden q)) 0 false).

Definition Q_of_float (f : spec_float) : Q :=
  match f with
  | S754_finite s m e =>
      let n := if s then Zneg m else Zpos m in
      Qred (if 0 <=? e then inject_Z (n * 2 ^ e) else Qmake n (Z.to_pos (2 ^ (- e))))
  | _ => 0%Q
  end.

(** CPython: a float is a double. *)
Definition float64_add (x y : Q) : Q :=
  Q_of_float (SFadd 53 1024 (float_of_Q 53 1024 x) (float_of_Q 53 1024 y)).

(** CircuitPython keeps a float in 30 bits: the sum is computed in single
    precision and the two lowest bits of the result are dropped. *)
Definition drop_two_bits (f : spec_float) : spec_float :=
  match f with
  | S754_finite s m e =>
      match (Zpos m / 4) with
      | Zpos m' => S754_finite s (4 * m') e
      | _ => S754_zero s
      end
  | _ => f
  end.

Definition float30_add (x y : Q) : Q :=
  Q_of_float (drop_two_bits (SFadd 24 128 (float_of_Q 24 128 x) (float_of_Q 24 128 y))).

(** The program on the board it was written for, and under CPython. *)
Definition circuitpython : Platform := {|
  secrets_mqtt_topic := "home/garage";
  json_dumps_instance := Some "<Garage_state object>"%string;
  json_prints_coroutine := true;
  json_prints_address := true;
  int_of_str := decimal;
  float_add := float30_add
|}.

Definition cpython : Platform := {|
  secrets_mqtt_topic := "home/garage";
  json_dumps_instance := None;
  json_prints_coroutine := false;
  json_prints_address := false;
  int_of_str := decimal;
  float_add := float64_add
|}.

(** Nothing happens: no motion, the door far from the sensor, noon, the
    link up, no message, the time service out of reach. *)
Definition quiet : Inputs := {|
  pir_value := false;
  now_trigger := 100%Q;
  now := 100%Q;
  distance := Measured 120%Q;
  rtc_hour := 12;
  link := healthy;
  inbound := [];
  http_response := inl OSError;
  aht20_temperature := 21%Q;
  aht20_relative_humidity := 40%Q;
  bh1750_lux := 5%Q;
  cpu_reset_reason := "POWER_ON";
  ipv4_address := Some "192.168.1.20"%string;
  board_board_id := "adafruit_feather_esp32s2"
|}.

Definition with_hour (h : Z) (i : Inputs) : Inputs := {|
  pir_value := pir_value i; now_trigger := now_trigger i; now := now i;
  distance := distance i; rtc_hour := h; link := link i; inbound := inbound i;
  http_response := http_response i; aht20_temperature := aht20_temperature i;
  aht20_relative_humidity := aht20_relative_humidity i; bh1750_lux := bh1750_lux i;
  cpu_reset_reason := cpu_reset_reason i; ipv4_address := ipv4_address i;
  board_board_id := board_board_id i
|}.

Definition with_now (t : Q) (i : Inputs) : Inputs := {|
  pir_value := pir_value i; now_trigger := now_trigger i; now := t;
  distance := distance i; rtc_hour := rtc_hour i; link := link i; inbound := inbound i;
  http_response := http_response i; aht20_temperature := aht20_temperature i;
  aht20_relative_humidity := aht20_relative_humidity i; bh1750_lux := bh1750_lux i;
  cpu_reset_reason := cpu_reset_reason i; ipv4_address := ipv4_address i;
  board_board_id := board_board_id i
|}.

Definition with_distance (r : Reading) (i : Inputs) : Inputs := {|
  pir_value := pir_value i; now_trigger := now_trigger i; now := now i;
  distance := r; rtc_hour := rtc_hour i; link := link i; inbound := inbound i;
  http_response := http_response i; aht20_temperature := aht20_temperature i;
  aht20_relative_humidity := aht20_relative_humidity i; bh1750_lux := bh1750_lux i;
  cpu_reset_reason := cpu_reset_reason i; ipv4_address := ipv4_address i;
  board_board_id := board_board_id i
|}.

Definition with_link (l : Link) (i : Inputs) : Inputs := {|
  pir_value := pir_value i; now_trigger := now_trigger i; now := now i;
  distance := distance i; rtc_hour := rtc_hour i; link := l; inbound := inbound i;
  http_response := http_response i; aht20_temperature := aht20_temperature i;
  aht20_relative_humidity := aht20_relative_humidity i; bh1750_lux := bh1750_lux i;
  cpu_reset_reason := cpu_reset_reason i; ipv4_address := ipv4_address i;
  board_board_id := board_board_id i
|}.

Definition with_inbound (ds : list Delivery) (i : Inputs) : Inputs := {|
  pir_value := pir_value i; now_trigger := now_trigger i; now := now i;
  distance := distance i; rtc_hour := rtc_hour i; link := link i; inbound := ds;
  http_response := http_response i; aht20_temperature := aht20_temperature i;
  aht20_relative_humidity := aht20_relative_humidity i; bh1750_lux := bh1750_lux i;
  cpu_reset_reason := cpu_reset_reason i; ipv4_address := ipv4_address i;
  board_board_id := board_board_id i
|}.

(** The door open, nobody around, no error flagged. *)
Definition door_open_no_motion : World := {|
  garage_state := {| door_error := false; motion := Some false;
                     door_status := PyStr "Open"; motion_timeout := 0%Q;
                     pause_door_check := false |};
  relay_value := false
|}.

(** An answer of the time service. *)
Definition saturday_afternoon : Response := {|
  currentDateTime := "2022-03-05T14:07-05:00";
  dayOfTheWeek := "Saturday";
  isDayLightSavingsTime := false
|}.

Definition with_http (r : Exn + Response) (i : Inputs) : Inputs := {|
  pir_value := pir_value i; now_trigger := now_trigger i; now := now i;
  distance := distance i; rtc_hour := rtc_hour i; link := link i; inbound := inbound i;
  http_response := r; aht20_temperature := aht20_temperature i;
  aht20_relative_humidity := aht20_relative_humidity i; bh1750_lux := bh1750_lux i;
  cpu_reset_reason := cpu_reset_reason i; ipv4_address := ipv4_address i;
  board_board_id := board_board_id i
|}.

(** The link down at the transport level, and up again after a reconnect. *)
Definition link_down : Link :=
  {| is_connected_r := Some OSError; reconnect_r := None; final_r := None |}.

Definition link_reconnects : Link :=
  {| is_connected_r := Some MMQTTException; reconnect_r := None; final_r := None |}.

(** The door stays at 50 from the sensor. *)
Definition still_open : Inputs := with_distance (Measured 50%Q) quiet.

(** [door_error] set, the door open, nobody around. *)
Definition door_open_flagged : World := {|
  garage_state := {| door_error := true; motion := Some false;
                     door_status := PyStr "Open"; motion_timeout := 0%Q;
                     pause_door_check := false |};
  relay_value := false
|}.

(** A failed close: the position monitor starts and finds the door open,
    the motion monitor finds nobody, the policy runs at 22 h, the opener
    pulses the relay and waits, the position monitor is paused, the policy
    wakes.  The tasks are named by their place in the pool. *)
Definition failed_close : list (nat * Inputs) :=
  [ (1%nat, quiet); (1%nat, still_open); (0%nat, quiet);
    (5%nat, with_hour 22 quiet); (8%nat, quiet); (8%nat, quiet);
    (1%nat, still_open); (5%nat, still_open) ].

(** Segments of other tasks, to run while the opener sleeps. *)
Definition meanwhile : list (TaskPc * Inputs) :=
  [ (DoorLoop, still_open); (MotionLoop, quiet); (PublishLoop, quiet) ].


(** Before and after the first turn of the motion monitor. *)
Definition before_motion : list (nat * Inputs) :=
  [ (1%nat, quiet); (1%nat, still_open); (5%nat, with_hour 22 quiet) ].

Definition after_motion : list (nat * Inputs) :=
  [ (4%nat, with_hour 22 quiet); (1%nat, quiet); (0%nat, quiet) ].

(** An answer of the time service cut short, and one with a weekday the
    table does not know. *)
Definition cut_short : Response := {|
  currentDateTime := "2022-03-05T14:07";
  dayOfTheWeek := "Saturday";
  isDayLightSavingsTime := false
|}.

Definition lower_case_day : Response := {|
  currentDateTime := "2022-03-05T14:07:09";
  dayOfTheWeek := "saturday";
  isDayLightSavingsTime := false
|}.

(** A configuration that asks for closing between 8 h and 17 h. *)
Definition daytime : Config := {|
  SENSOR_UPDATE_INTERVAL := 60;
  RTC_UPDATE_INTERVAL := 43200;
  DOOR_CLOSE_DELAY := 12;
  MOTION_TIMEOUT := 300;
  DOOR_DISTANCE := 90;
  GARAGE_CLOSE_AFTER := 8;
  GARAGE_CLOSE_BEFORE := 17
|}.

Definition with_pir (b : bool) (i : Inputs) : Inputs := {|
  pir_value := b; now_trigger := now_trigger i; now := now i;
  distance := distance i; rtc_hour := rtc_hour i; link := link i; inbound := inbound i;
  http_response := http_response i; aht20_temperature := aht20_temperature i;
  aht20_relative_humidity := aht20_relative_humidity i; bh1750_lux := bh1750_lux i;
  cpu_reset_reason := cpu_reset_reason i; ipv4_address := ipv4_address i;
  board_board_id := board_board_id i
|}.

(** Somebody was seen: [motion] is [True] until 400 on the clock. *)
Definition somebody_seen : World := {|
  garage_state := {| door_error := false; motion := Some true;
                     door_status := PyStr "Closed"; motion_timeout := 400%Q;
                     pause_door_check := false |};
  relay_value := false
|}.

(** The clock task gets its turn first and the time service is out of
    reach; then the other tasks run. *)
Definition after_failed_fetch : list (nat * Inputs) :=
  [ (0%nat, quiet); (3%nat, with_http (inr saturday_afternoon) quiet);
    (4%nat, with_hour 22 quiet) ].

(** The shared objects after a close that [check_open_time] ordered: the
    coroutine object is in [door_status]. *)
Definition after_failed_close : World := {|
  garage_state := {| door_error := false; motion := Some false;
                     door_status := PyCoroutine "get_door_state";
                     motion_timeout := 0%Q; pause_door_check := false |};
  relay_value := false
|}.

Section Controller.

Variable cfg : Config.
Variable platform : Platform.

Definition MQTT_ENVIRONMENT : string := (secrets_mqtt_topic platform ++ "/environment")%string.
Definition MQTT_GARAGE_STATE : string := (secrets_mqtt_topic platform ++ "/garage-state")%string.
Definition MQTT_DOOR_REQUEST : string := (secrets_mqtt_topic platform ++ "/door-request")%string.
Definition MQTT_SYSTEM : string := (secrets_mqtt_topic platform ++ "/system")%string.

(** *** The [json] property of [Garage_state]

    [json.dumps] of the dictionary of the three attributes.  [None], a
    boolean and a string have a JSON form; the coroutine object that
    [check_open_time] leaves in [door_status] has none. *)
Definition json (g : Garage_state) : M Payload :=
  match door_status g with
  | PyCoroutine _ =>
      if json_prints_coroutine platform
      then ret (PSnapshot (door_status g) (door_error g) (motion g))
      else raise TypeError
  | _ => ret (PSnapshot (door_status g) (door_error g) (motion g))
  end.

(** *** activate_opener, cut at its two sleeps *)

Definition activate_opener_start : M Next :=
  set_pause_door_check true ;;
  set_relay true ;;
  ret (Sleep 2%Q OpenerPulse).

Definition activate_opener_pulse : M Next :=
  set_relay false ;;
  ret (Sleep (inject_Z (DOOR_CLOSE_DELAY cfg)) OpenerSettle).

Definition activate_opener_settle : M Next :=
  set_pause_door_check false ;;
  ret Finished.

(** *** get_motion_state: one turn of its loop *)

Definition get_motion_state_iter (i : Inputs) : M Next :=
  (if pir_value i then
     set_motion_timeout
       (float_add platform (now_trigger i) (inject_Z (MOTION_TIMEOUT cfg))) ;;
     set_motion (Some true)
   else ret tt) ;;
  try_except
    (g <- get ;;
     if Qltb (motion_timeout g) (now i) then set_motion (Some false) else ret tt)
    (fun e => match e with KeyError => Some (ret tt) | _ => None end) ;;
  ret (Sleep 0%Q MotionLoop).

(** *** get_door_state: up to the first sleep, then one turn of its loop *)

Definition get_door_state_start : M Next :=
  ret (Sleep 0%Q DoorLoop).

Definition get_door_state_iter (i : Inputs) : M Next :=
  g <- get ;;
  if pause_door_check g then ret (Sleep 0%Q DoorLoop)
  else
    let _previous_state := door_status g in
    d <- read_distance (distance i) ;;
    (if Qltb d (inject_Z (DOOR_DISTANCE cfg))
     then set_door_status (PyStr "Open")
     else set_door_status (PyStr "Closed")) ;;
    g' <- get ;;
    (if negb (py_eq _previous_state (door_status g'))
     then text <- json g' ;;
          publish_to_mqtt (link i) MQTT_GARAGE_STATE text
     else ret tt) ;;
    ret (Sleep 0%Q DoorLoop).

(** *** get_sensor_data, get_system_data, mqtt_publish_loop: one turn each *)

Definition get_sensor_data_iter (i : Inputs) : M Next :=
  publish_to_mqtt (link i) MQTT_ENVIRONMENT
    (PEnvironment (aht20_temperature i) (aht20_relative_humidity i) (bh1750_lux i)) ;;
  ret (Sleep 60%Q SensorLoop).

(** [json.dumps(_data)] in [get_system_data]: the dictionary holds the
    address object of the radio, unless the radio has no address. *)
Definition json_dumps_system (i : Inputs) : M Payload :=
  match ipv4_address i, json_prints_address platform with
  | Some _, false => raise TypeError
  | _, _ => ret (PSystem (cpu_reset_reason i) (now i) (ipv4_address i)
                   (board_board_id i))
  end.

Definition get_system_data_iter (i : Inputs) : M Next :=
  text <- json_dumps_system i ;;
  publish_to_mqtt (link i) MQTT_SYSTEM text ;;
  ret (Sleep 60%Q SystemLoop).

(** [garage_state.json] is evaluated twice: for [print], then for the
    publish. *)
Definition mqtt_publish_loop_iter (i : Inputs) : M Next :=
  g <- get ;;
  _ <- json g ;;
  g <- get ;;
  text <- json g ;;
  publish_to_mqtt (link i) MQTT_GARAGE_STATE text ;;
  ret (Sleep 60%Q PublishLoop).

(** *** message, the callback of the subscription *)

Definition message (lk : Link) (topic : string) (msg : string) : M unit :=
  if String.eqb topic MQTT_DOOR_REQUEST then
    if String.eqb msg "True" then
      publish_to_mqtt lk MQTT_DOOR_REQUEST (PText "False") ;;
      emit (EvCreateTask activate_opener_co)
    else ret tt
  else ret tt.

(** [mqtt_client.loop()]: the messages that arrived go to the callback,
    one after the other, then the call returns or raises. *)
Fixpoint deliver (ds : list Delivery) : M unit :=
  match ds with
  | [] => ret tt
  | d :: ds' => message (d_link d) (d_topic d) (d_message d) ;; deliver ds'
  end.

Definition client_loop (ds : list Delivery) (answer : option Exn) : M unit :=
  emit (EvClient Loop answer) ;;
  deliver ds ;;
  match answer with
  | None => ret tt
  | Some e => raise e
  end.

(** *** mqtt_client_loop: one turn *)

Definition mqtt_client_loop_iter (i : Inputs) : M Next :=
  try_finally
    (try_except (client IsConnected (is_connected_r (link i)))
       (fun e =>
          match e with
          | MMQTTException =>
              Some (try_except (client Reconnect (reconnect_r (link i))) reset_on_link_error)
          | OSError => Some reset
          | _ => None
          end))
    (try_except (client_loop (inbound i) (final_r (link i))) reset_on_link_error) ;;
  ret (Sleep 1%Q MqttLoop).

(** *** update_rtc *)

Definition int (s : string) : M Z :=
  match int_of_str platform s with
  | Some z => ret z
  | None => raise ValueError
  end.

Definition update_rtc (i : Inputs) : M Next :=
  emit EvHttpGet ;;
  match http_response i with
  | inl e => raise e
  | inr response =>
      let datetime := currentDateTime response in
      year <- int (substring 0 4 datetime) ;;
      mon <- int (substring 5 2 datetime) ;;
      mday <- int (substring 8 2 datetime) ;;
      hour <- int (substring 11 2 datetime) ;;
      min <- int (substring 14 2 datetime) ;;
      sec <- int (substring 17 2 datetime) ;;
      wday <- match dict_get (dayOfTheWeek response) day_lookup with
              | Some d => ret d
              | None => raise KeyError
              end ;;
      emit (EvRtcSet {| tm_year := year; tm_mon := mon; tm_mday := mday;
                        tm_hour := hour; tm_min := min; tm_sec := sec;
                        tm_wday := wday; tm_yday := -1;
                        tm_isdst := isDayLightSavingsTime response |}) ;;
      ret Finished
  end.

(** *** check_open_time, cut at its sleep *)

Definition in_close_window (hour : Z) : bool :=
  (GARAGE_CLOSE_AFTER cfg <=? hour) || (hour <=? GARAGE_CLOSE_BEFORE cfg).

(** From the call to the sleep.  [door_error_time] is a local variable of
    the call: nothing is assigned to it before the [elif] reads it, so the
    sum on that line is never computed. *)
Definition check_open_time (i : Inputs) : M Next :=
  let door_error_time : option Q := None in
  if in_close_window (rtc_hour i) then
    g <- get ;;
    if py_eq (door_status g) (PyStr "Open") then
      if negb (door_error g) then
        match motion g with
        | Some false =>
            emit (EvCreateTask activate_opener_co) ;;
            ret (Sleep (inject_Z (DOOR_CLOSE_DELAY cfg)) PolicyAfterSleep)
        | _ => ret Finished
        end
      else
        let t := now i in
        t0 <- load_local door_error_time ;;
        if Qltb (t0 + 900)%Q t
        then set_door_error false ;; ret Finished
        else ret Finished
    else ret Finished
  else ret Finished.

(** After the sleep.  [get_door_state()] is a call of an [async def]
    function that is not awaited: its value is a coroutine object and
    nothing of its body runs.  The argument of [json.dumps] is the instance
    [garage_state], not its [json] property. *)
Definition check_open_time_after_sleep (i : Inputs) : M Next :=
  set_door_status (PyCoroutine "get_door_state") ;;
  g <- get ;;
  (if py_eq (door_status g) (PyStr "Open")
   then set_door_error true   (* and door_error_time = time.monotonic() *)
   else ret tt) ;;
  text <- match json_dumps_instance platform with
          | Some s => ret s
          | None => raise TypeError
          end ;;
  publish_to_mqtt (link i) MQTT_GARAGE_STATE (PText text) ;;
  ret Finished.

(** *** The tasks *)

Definition resume (pc : TaskPc) (i : Inputs) : M Next :=
  match pc with
  | MotionLoop => get_motion_state_iter i
  | DoorStart => get_door_state_start
  | DoorLoop => get_door_state_iter i
  | SensorLoop => get_sensor_data_iter i
  | SystemLoop => get_system_data_iter i
  | RtcStart => update_rtc i
  | PolicyStart => check_open_time i
  | PolicyAfterSleep => check_open_time_after_sleep i
  | MqttLoop => mqtt_client_loop_iter i
  | PublishLoop => mqtt_publish_loop_iter i
  | OpenerStart => activate_opener_start
  | OpenerPulse => activate_opener_pulse
  | OpenerSettle => activate_opener_settle
  end.

(** [main]: the eight tasks it creates, in order. *)
Definition main : list TaskPc :=
  [ MotionLoop; DoorStart; SensorLoop; SystemLoop;
    RtcStart; PolicyStart; MqttLoop; PublishLoop ].


(** *** The event loop

    The tasks of the program as the places where they are suspended.  One
    step resumes one of them up to its next [await]; the order and the
    times at which asyncio resumes them are left open, so every run of the
    program is one of the runs below.  A task that raises is dropped and
    the others go on, which also covers an event loop that stops at the
    first exception; after [microcontroller.reset()] nothing runs. *)

Inductive Status : Type :=
| Running
| Restarted.

Record System : Type := {
  sys_world : World;
  pool : list TaskPc;
  sys_log : list Event;
  resumed : list TaskPc;
  raised : list (TaskPc * Exn);
  status : Status
}.

(** The tasks that [asyncio.create_task] calls of a segment add. *)
Definition created (evs : list Event) : list TaskPc :=
  flat_map (fun e => match e with
                     | EvCreateTask activate_opener_co => [OpenerStart]
                     | _ => []
                     end) evs.

Fixpoint set_nth (n : nat) (pc : TaskPc) (l : list TaskPc) : list TaskPc :=
  match l, n with
  | [], _ => []
  | _ :: l', O => pc :: l'
  | x :: l', S n' => x :: set_nth n' pc l'
  end.

Fixpoint drop_nth (n : nat) (l : list TaskPc) : list TaskPc :=
  match l, n with
  | [], _ => []
  | _ :: l', O => l'
  | x :: l', S n' => x :: drop_nth n' l'
  end.

(** [asyncio.run(main())] at its start. *)
Definition boot : System := {|
  sys_world := World_init;
  pool := main;
  sys_log := [];
  resumed := [];
  raised := [];
  status := Running
|}.

(** Resume the [n]-th task of the pool with the answers [i]. *)
Definition sys_resume (n : nat) (i : Inputs) (s : System) : System :=
  match status s, nth_error (pool s) n with
  | Running, Some pc =>
      let o := resume pc i (sys_world s) in
      {| sys_world := final o;
         pool := match res o with
                 | Ret (Sleep _ pc') => set_nth n pc' (pool s)
                 | _ => drop_nth n (pool s)
                 end ++ created (events o);
         sys_log := sys_log s ++ events o;
         resumed := resumed s ++ [pc];
         raised := match res o with
                   | Exc e => raised s ++ [(pc, e)]
                   | _ => raised s
                   end;
         status := match res o with
                   | Halt => Restarted
                   | _ => Running
                   end |}
  | _, _ => s
  end.

Definition exec (sched : list (nat * Inputs)) (s : System) : System :=
  fold_left (fun s' p => sys_resume (fst p) (snd p) s') sched s.

(** Segments run one after the other on the shared objects. *)
Definition run_segments (l : list (TaskPc * Inputs)) (w : World) : World :=
  fold_left (fun w' p => final (resume (fst p) (snd p) w')) l w.

Definition is_opener (pc : TaskPc) : bool :=
  match pc with
  | OpenerStart | OpenerPulse | OpenerSettle => true
  | _ => false
  end.

(** *** Counting in a log *)

Definition count_ev (p : Event -> bool) (l : list Event) : nat :=
  List.length (filter p l).

Definition is_create_task (e : Event) : bool :=
  match e with EvCreateTask _ => true | _ => false end.

Definition is_reset (e : Event) : bool :=
  match e with EvReset => true | _ => false end.

Definition is_reconnect (e : Event) : bool :=
  match e with EvClient Reconnect _ => true | _ => false end.

Definition is_publish_to_mqtt (topic : string) (e : Event) : bool :=
  match e with
  | EvPublishToMqtt t _ => String.eqb t topic
  | _ => false
  end.

Definition is_ack (e : Event) : bool :=
  match e with
  | EvClient (Publish t (PText s)) _ => String.eqb t MQTT_DOOR_REQUEST && String.eqb s "False"
  | _ => false
  end.

Definition is_snapshot (e : Event) : bool :=
  match e with
  | EvPublishToMqtt _ (PSnapshot _ _ _) | EvClient (Publish _ (PSnapshot _ _ _)) _ => true
  | _ => false
  end.

Definition is_rtc_set (e : Event) : bool :=
  match e with EvRtcSet _ => true | _ => false end.

Definition eqb_pc (a b : TaskPc) : bool :=
  match a, b with
  | MotionLoop, MotionLoop | DoorStart, DoorStart | DoorLoop, DoorLoop
  | SensorLoop, SensorLoop | SystemLoop, SystemLoop | RtcStart, RtcStart
  | PolicyStart, PolicyStart | PolicyAfterSleep, PolicyAfterSleep
  | MqttLoop, MqttLoop | PublishLoop, PublishLoop
  | OpenerStart, OpenerStart | OpenerPulse, OpenerPulse
  | OpenerSettle, OpenerSettle => true
  | _, _ => false
  end.

Definition count_pc (pc : TaskPc) (l : list TaskPc) : nat :=
  List.length (filter (eqb_pc pc) l).

(** *** The answers of the client, sorted *)

(** Protocol level: [MQTT.MMQTTException]; transport level: [OSError]. *)
Definition is_protocol (a : option Exn) : bool :=
  match a with Some MMQTTException => true | _ => false end.

Definition is_transport (a : option Exn) : bool :=
  match a with Some OSError => true | _ => false end.

Definition link_failed (a : option Exn) : bool :=
  is_protocol a || is_transport a.

(** The error path ends in [microcontroller.reset()]. *)
Definition error_path_restarts (lk : Link) : bool :=
  is_transport (is_connected_r lk)
  || (is_protocol (is_connected_r lk) && link_failed (reconnect_r lk)).

Definition is_publish_call (e : Event) : bool :=
  match e with EvClient (Publish _ _) _ => true | _ => false end.

Definition is_loop_call (e : Event) : bool :=
  match e with EvClient Loop _ => true | _ => false end.

(** The part of a log before the first event that satisfies [p]. *)
Fixpoint before (p : Event -> bool) (l : list Event) : list Event :=
  match l with
  | [] => []
  | e :: l' => if p e then [] else e :: before p l'
  end.

Definition is_halt {A : Type} (r : Res A) : bool :=
  match r with Halt => true | _ => false end.

(** The error path that [publish_to_mqtt] and [mqtt_client_loop] share,
    word for word: the [try] with its two [except] clauses. *)
Definition error_path (lk : Link) : M unit :=
  try_except (client IsConnected (is_connected_r lk))
    (fun e =>
       match e with
       | MMQTTException =>
           Some (try_except (client Reconnect (reconnect_r lk)) reset_on_link_error)
       | OSError => Some reset
       | _ => None
       end).

(** A callback let an exception out of [mqtt_client.loop()]: the call ends
    with that exception, whatever the client would have answered. *)
Definition callback_raises (ds : list Delivery) (w : World) : bool :=
  match res (deliver ds w) with Exc _ => true | _ => false end.

(** The classification of a distance by [get_door_state]. *)
Definition classify (d : Q) : PyVal :=
  if Qltb d (inject_Z (DOOR_DISTANCE cfg)) then PyStr "Open" else PyStr "Closed".

(** *** What a segment guarantees

    [triple R p P m]: from any start, [m] ends in shared objects related
    to the start by [R], logs no event counted by [p] and, when it
    returns, returns a value that satisfies [P]. *)
Definition triple {A : Type} (R : World -> World -> Prop) (p : Event -> bool)
  (P : A -> Prop) (m : M A) : Prop :=
  forall w,
    R w (final (m w))
    /\ (forall a, res (m w) = Ret a -> P a)
    /\ count_ev p (events (m w)) = 0%nat.

Definition keeps_pause_and_relay (w w' : World) : Prop :=
  pause_door_check (garage_state w') = pause_door_check (garage_state w)
  /\ relay_value w' = relay_value w.

Definition keeps_motion (w w' : World) : Prop :=
  motion (garage_state w') = motion (garage_state w)
  /\ motion_timeout (garage_state w') = motion_timeout (garage_state w).

Definition motion_stays_known (w w' : World) : Prop :=
  motion (garage_state w) <> None -> motion (garage_state w') <> None.

Definition no_event (e : Event) : bool := false.

Definition anything {A : Type} (a : A) : Prop := True.

(** Where a task may go on after a segment, and whether it may end. *)
Definition next_ok (pc : TaskPc) (n : Next) : bool :=
  match pc, n with
  | MotionLoop, Sleep _ MotionLoop
  | DoorStart, Sleep _ DoorLoop
  | DoorLoop, Sleep _ DoorLoop
  | SensorLoop, Sleep _ SensorLoop
  | SystemLoop, Sleep _ SystemLoop
  | MqttLoop, Sleep _ MqttLoop
  | PublishLoop, Sleep _ PublishLoop
  | RtcStart, Finished
  | PolicyStart, Sleep _ PolicyAfterSleep
  | PolicyStart, Finished
  | PolicyAfterSleep, Finished
  | OpenerStart, Sleep _ OpenerPulse
  | OpenerPulse, Sleep _ OpenerSettle
  | OpenerSettle, Finished => true
  | _, _ => false
  end.

(** What a segment of the task at [pc] leaves as it was: the pause flag
    and the relay unless the task is [activate_opener], the motion state
    unless it is [get_motion_state]; and motion, once known, stays known. *)
Definition frame (pc : TaskPc) (w w' : World) : Prop :=
  (if is_opener pc then True else keeps_pause_and_relay w w')
  /\ (if eqb_pc pc MotionLoop then True else keeps_motion w w')
  /\ motion_stays_known w w'.

(** The events counted at [pc]: writes of the clock, except in [update_rtc]. *)
Definition counted (pc : TaskPc) : Event -> bool :=
  if eqb_pc pc RtcStart then no_event else is_rtc_set.

(** Counting one place in a pool, and the place a segment goes on at. *)
Definition one (q pc : TaskPc) : nat := if eqb_pc q pc then 1%nat else 0%nat.

Definition goes_to (q : TaskPc) (r : Res Next) : nat :=
  match r with
  | Ret (Sleep _ pc') => one q pc'
  | _ => 0%nat
  end.

(** What holds of the event loop at every moment of a run: the two
    one-shot tasks are in the pool or were resumed, once in all; the clock
    was not set more often than [update_rtc] was started; and as long as
    no task raised and the device was not restarted, each of the six
    looping tasks is in the pool. *)
Definition sys_inv (s : System) : Prop :=
  (count_pc PolicyStart (pool s) + count_pc PolicyStart (resumed s) = 1)%nat
  /\ (count_pc PolicyAfterSleep (pool s) + count_pc PolicyAfterSleep (resumed s)
      <= count_pc PolicyStart (resumed s))%nat
  /\ (count_pc RtcStart (pool s) + count_pc RtcStart (resumed s) = 1)%nat
  /\ (count_ev is_rtc_set (sys_log s) <= count_pc RtcStart (resumed s))%nat
  /\ (raised s = [] -> status s = Running ->
      count_pc MotionLoop (pool s) = 1%nat
      /\ (count_pc DoorStart (pool s) + count_pc DoorLoop (pool s) = 1)%nat
      /\ count_pc SensorLoop (pool s) = 1%nat
      /\ count_pc SystemLoop (pool s) = 1%nat
      /\ count_pc MqttLoop (pool s) = 1%nat
      /\ count_pc PublishLoop (pool s) = 1%nat).


Definition goes_on (r : Res Next) : bool :=
  match r with Ret Finished => false | _ => true end.


(** A request to move the door, as the broker delivers it. *)
Definition request : Delivery :=
  {| d_topic := MQTT_DOOR_REQUEST; d_message := "True"; d_link := healthy |}.


(** *** Further frames and invariants *)

(** The tasks that assign to [garage_state.door_status]. *)
Definition writes_status (pc : TaskPc) : bool :=
  match pc with
  | DoorLoop | PolicyAfterSleep => true
  | _ => false
  end.

(** What a segment of the task at [pc] leaves as it was: [door_error], and
    [door_status] unless the task assigns to it. *)
Definition frame_status (pc : TaskPc) (w w' : World) : Prop :=
  door_error (garage_state w') = door_error (garage_state w)
  /\ (if writes_status pc then True
      else door_status (garage_state w') = door_status (garage_state w)).

(** An [activate_opener] call is in flight: suspended at one of its sleeps. *)
Definition openers_in_flight (s : System) : nat :=
  (count_pc OpenerPulse (pool s) + count_pc OpenerSettle (pool s))%nat.

(** The relay is high only during a pulse, the position monitor is paused
    only during a call of [activate_opener]. *)
Definition actuator_inv (s : System) : Prop :=
  (relay_value (sys_world s) = true -> (1 <= count_pc OpenerPulse (pool s))%nat)
  /\ (pause_door_check (garage_state (sys_world s)) = true ->
      (1 <= openers_in_flight s)%nat).

(** The deliveries that ask for the door to move. *)
Definition is_request (d : Delivery) : bool :=
  String.eqb (d_topic d) MQTT_DOOR_REQUEST && String.eqb (d_message d) "True".

Definition is_publish_entry (e : Event) : bool :=
  match e with EvPublishToMqtt _ _ => true | _ => false end.

(** The value [update_rtc] builds from an answer of the time service, or
    the exception it meets on the way, in the order of its statements. *)
Definition struct_time_of (r : Response) : Exn + struct_time :=
  let datetime := currentDateTime r in
  match int_of_str platform (substring 0 4 datetime) with
  | None => inl ValueError
  | Some year =>
  match int_of_str platform (substring 5 2 datetime) with
  | None => inl ValueError
  | Some mon =>
  match int_of_str platform (substring 8 2 datetime) with
  | None => inl ValueError
  | Some mday =>
  match int_of_str platform (substring 11 2 datetime) with
  | None => inl ValueError
  | Some hour =>
  match int_of_str platform (substring 14 2 datetime) with
  | None => inl ValueError
  | Some min =>
  match int_of_str platform (substring 17 2 datetime) with
  | None => inl ValueError
  | Some sec =>
  match dict_get (dayOfTheWeek r) day_lookup with
  | None => inl KeyError
  | Some wday =>
      inr {| tm_year := year; tm_mon := mon; tm_mday := mday;
             tm_hour := hour; tm_min := min; tm_sec := sec;
             tm_wday := wday; tm_yday := -1;
             tm_isdst := isDayLightSavingsTime r |}
  end end end end end end end.
(** * Properties *)

(** ** The monad *)

Lemma Qltb_lt (x y : Q) : Qltb x y = true <-> (x < y)%Q.
Proof.
  unfold Qltb. rewrite negb_true_iff. split; intro H.
  - apply Qnot_le_lt. intro L. apply Qle_bool_iff in L. congruence.
  - destruct (Qle_bool y x) eqn:E; [|reflexivity].
    apply Qle_bool_iff in E. exfalso. apply (Qlt_not_le _ _ H E).
Qed.

Lemma Qltb_ge (x y : Q) : Qltb x y = false <-> (y <= x)%Q.
Proof.
  unfold Qltb. rewrite negb_false_iff. apply Qle_bool_iff.
Qed.

Lemma py_eq_str_iff (v : PyVal) (s : string) :
  py_eq v (PyStr s) = true <-> v = PyStr s.
Proof.
  destruct v as [|t|f]; simpl; split; intro H; try discriminate.
  - apply String.eqb_eq in H. now subst.
  - injection H as ->. apply String.eqb_refl.
Qed.

Lemma count_ev_app (p : Event -> bool) (l1 l2 : list Event) :
  count_ev p (l1 ++ l2) = (count_ev p l1 + count_ev p l2)%nat.
Proof.
  unfold count_ev. rewrite filter_app, length_app. reflexivity.
Qed.

(** The laws used to run a segment by rewriting. *)

Lemma bind_ret_l {A B : Type} (a : A) (k : A -> M B) (w : World) :
  bind (ret a) k w = k a w.
Proof.
  unfold bind, ret. cbn. destruct (k a w); reflexivity.
Qed.

Lemma bind_get {B : Type} (k : Garage_state -> M B) (w : World) :
  bind get k w = k (garage_state w) w.
Proof.
  unfold bind, get. cbn. destruct (k (garage_state w) w); reflexivity.
Qed.

Lemma bind_put {B : Type} (g : Garage_state) (k : unit -> M B) (w : World) :
  bind (put g) k w = k tt {| garage_state := g; relay_value := relay_value w |}.
Proof.
  unfold bind, put. cbn. destruct (k tt _); reflexivity.
Qed.

Lemma bind_assoc {A B C : Type} (m : M A) (k : A -> M B) (h : B -> M C) (w : World) :
  bind (bind m k) h w = bind m (fun a => bind (k a) h) w.
Proof.
  unfold bind. destruct (m w) as [[a|e|] w1 ev1]; cbn; try reflexivity.
  destruct (k a w1) as [[b|e|] w2 ev2]; cbn; try reflexivity.
  destruct (h b w2) as [r w3 ev3]; cbn. rewrite app_assoc. reflexivity.
Qed.

Lemma bind_set_door_status {B : Type} (v : PyVal) (k : unit -> M B) (w : World) :
  bind (set_door_status v) k w
  = k tt {| garage_state :=
              {| door_error := door_error (garage_state w);
                 motion := motion (garage_state w);
                 door_status := v;
                 motion_timeout := motion_timeout (garage_state w);
                 pause_door_check := pause_door_check (garage_state w) |};
            relay_value := relay_value w |}.
Proof.
  unfold set_door_status. rewrite bind_assoc, bind_get, bind_put. reflexivity.
Qed.

Lemma bind_then_ret {A B : Type} (m : M A) (b : B) (w : World) :
  final (bind m (fun _ => ret b) w) = final (m w)
  /\ events (bind m (fun _ => ret b) w) = events (m w)
  /\ res (bind m (fun _ => ret b) w)
     = match res (m w) with Ret _ => Ret b | Exc e => Exc e | Halt => Halt end.
Proof.
  unfold bind, ret. destruct (m w) as [[a|e|] w1 ev1]; cbn;
    rewrite ?app_nil_r; repeat split; reflexivity.
Qed.

(** ** The link: publish_to_mqtt *)

Lemma publish_to_mqtt_final (lk : Link) (topic : string) (msg : Payload) (w : World) :
  final (publish_to_mqtt lk topic msg w) = w.
Proof.
  destruct lk as [[[]|] [[]|] [[]|]]; reflexivity.
Qed.

Lemma publish_to_mqtt_res (lk : Link) (topic : string) (msg : Payload) (w : World) :
  res (publish_to_mqtt lk topic msg w) =
  if error_path_restarts lk then Halt
  else if link_failed (final_r lk) then Halt
  else match final_r lk, is_connected_r lk, reconnect_r lk with
       | Some e, _, _ => Exc e
       | None, Some MMQTTException, Some e => Exc e
       | None, Some MMQTTException, None => Ret tt
       | None, Some e, _ => Exc e
       | None, None, _ => Ret tt
       end.
Proof.
  destruct lk as [[[]|] [[]|] [[]|]]; reflexivity.
Qed.

Lemma publish_to_mqtt_counts (lk : Link) (topic : string) (msg : Payload) (w : World) :
  let o := publish_to_mqtt lk topic msg w in
  count_ev is_reconnect (events o) = (if is_protocol (is_connected_r lk) then 1 else 0)%nat
  /\ count_ev is_publish_call (events o) = (if error_path_restarts lk then 0 else 1)%nat
  /\ count_ev is_reset (events o) = (if is_halt (res o) then 1 else 0)%nat
  /\ count_ev is_loop_call (events o) = 0%nat
  /\ count_ev is_create_task (events o) = 0%nat.
Proof.
  destruct lk as [[[]|] [[]|] [[]|]]; repeat split; reflexivity.
Qed.

(** *** The callback and mqtt_client.loop() *)

Lemma message_final (lk : Link) (topic msg : string) (w : World) :
  final (message lk topic msg w) = w.
Proof.
  unfold message.
  destruct (String.eqb topic MQTT_DOOR_REQUEST); [|reflexivity].
  destruct (String.eqb msg "True"); [|reflexivity].
  unfold bind.
  pose proof (publish_to_mqtt_final lk MQTT_DOOR_REQUEST (PText "False") w) as F.
  destruct (publish_to_mqtt lk MQTT_DOOR_REQUEST (PText "False") w) as [[[]| |] wf evs];
    simpl in *; assumption.
Qed.

Lemma message_counts (lk : Link) (topic msg : string) (w : World) :
  let o := message lk topic msg w in
  count_ev is_loop_call (events o) = 0%nat
  /\ count_ev is_reset (events o) = (if is_halt (res o) then 1 else 0)%nat.
Proof.
  unfold message.
  destruct (String.eqb topic MQTT_DOOR_REQUEST); [|split; reflexivity].
  destruct (String.eqb msg "True"); [|split; reflexivity].
  destruct lk as [[[]|] [[]|] [[]|]]; split; reflexivity.
Qed.

Lemma deliver_final (ds : list Delivery) (w : World) :
  final (deliver ds w) = w.
Proof.
  induction ds as [|d ds IH]; simpl; [reflexivity|].
  unfold bind.
  pose proof (message_final (d_link d) (d_topic d) (d_message d) w) as F.
  destruct (message (d_link d) (d_topic d) (d_message d) w) as [[[]| |] wf evs];
    simpl in *; subst; auto.
Qed.

Lemma deliver_counts (ds : list Delivery) (w : World) :
  let o := deliver ds w in
  count_ev is_loop_call (events o) = 0%nat
  /\ count_ev is_reset (events o) = (if is_halt (res o) then 1 else 0)%nat.
Proof.
  induction ds as [|d ds IH]; simpl; [split; reflexivity|].
  unfold bind.
  pose proof (message_final (d_link d) (d_topic d) (d_message d) w) as F.
  destruct (message_counts (d_link d) (d_topic d) (d_message d) w) as [L R].
  destruct (message (d_link d) (d_topic d) (d_message d) w) as [[[]| |] wf evs];
    simpl in *; subst; try (split; assumption).
  destruct IH as [L' R'].
  rewrite !count_ev_app, L, R, L', R'. split; reflexivity.
Qed.

Lemma error_path_spec (lk : Link) (w : World) :
  let o := error_path lk w in
  final o = w
  /\ is_halt (res o) = error_path_restarts lk
  /\ count_ev is_reconnect (events o) = (if is_protocol (is_connected_r lk) then 1 else 0)%nat
  /\ count_ev is_loop_call (events o) = 0%nat
  /\ count_ev is_reset (events o) = (if error_path_restarts lk then 1 else 0)%nat.
Proof.
  destruct lk as [[[]|] [[]|] f]; repeat split; reflexivity.
Qed.

Lemma try_finally_events {A : Type} (b : M A) (f : M unit) (w : World) :
  events (try_finally b f w)
  = events (b w) ++ (if is_halt (res (b w)) then [] else events (f (final (b w)))).
Proof.
  unfold try_finally.
  destruct (b w) as [[a|e|] wf evs]; simpl; auto using app_nil_r.
Qed.

Lemma try_finally_halt {A : Type} (b : M A) (f : M unit) (w : World) :
  is_halt (res (try_finally b f w))
  = is_halt (res (b w)) || is_halt (res (f (final (b w)))).
Proof.
  unfold try_finally.
  destruct (b w) as [[a|e|] wf evs]; simpl; try reflexivity;
    destruct (res (f wf)); reflexivity.
Qed.

Lemma before_app (p : Event -> bool) (l1 l2 : list Event) :
  count_ev p l1 = 0%nat -> before p (l1 ++ l2) = l1 ++ before p l2.
Proof.
  unfold count_ev. induction l1 as [|e l1 IH]; simpl; intro H; [reflexivity|].
  destruct (p e); simpl in H; [discriminate|].
  rewrite IH by assumption. reflexivity.
Qed.

(** The [finally] block of [mqtt_client_loop]: the call of
    [mqtt_client.loop] comes first in its log and only once. *)
Lemma loop_attempt_spec (ds : list Delivery) (f : option Exn) (w : World) :
  let o := try_except (client_loop ds f) reset_on_link_error w in
  exists tail,
    events o = EvClient Loop f :: tail
    /\ count_ev is_loop_call tail = 0%nat
    /\ count_ev is_reset tail = (if is_halt (res o) then 1 else 0)%nat
    /\ implb (link_failed f && negb (callback_raises ds w)) (is_halt (res o)) = true.
Proof.
  destruct (deliver_counts ds w) as [L R].
  unfold callback_raises, client_loop, try_except, bind, emit.
  cbn [res final events app].
  destruct (deliver ds w) as [[[]|e|] wf evs]; cbn [res final events is_halt] in *.
  - destruct f as [[]|]; cbn;
      eexists; (split; [reflexivity|]);
      rewrite ?app_nil_r, ?count_ev_app, ?L, ?R; repeat split; reflexivity.
  - rewrite andb_false_r.
    destruct e; cbn; eexists; (split; [reflexivity|]);
      rewrite ?app_nil_r, ?count_ev_app, ?L, ?R; repeat split; reflexivity.
  - eexists; split; [reflexivity|]. rewrite L, R. repeat split.
    destruct (link_failed f); reflexivity.
Qed.

Lemma mqtt_client_loop_iter_counts (i : Inputs) (w : World) :
  let o := mqtt_client_loop_iter i w in
  count_ev is_reconnect (before is_loop_call (events o))
    = (if is_protocol (is_connected_r (link i)) then 1 else 0)%nat
  /\ count_ev is_loop_call (events o)
    = (if error_path_restarts (link i) then 0 else 1)%nat
  /\ implb (error_path_restarts (link i)
            || (link_failed (final_r (link i)) && negb (callback_raises (inbound i) w)))
           (is_halt (res o)) = true
  /\ count_ev is_reset (events o) = (if is_halt (res o) then 1 else 0)%nat.
Proof.
  unfold mqtt_client_loop_iter. fold (error_path (link i)).
  set (fin := try_except (client_loop (inbound i) (final_r (link i))) reset_on_link_error).
  destruct (error_path_spec (link i) w) as (F & H & RC & LC & RS).
  destruct (loop_attempt_spec (inbound i) (final_r (link i)) w)
    as (tail & E & LT & RT & HT).
  fold fin in E, RT, HT.
  pose proof (try_finally_events (error_path (link i)) fin w) as EV.
  pose proof (try_finally_halt (error_path (link i)) fin w) as HV.
  rewrite F in EV, HV. rewrite H in EV, HV.
  assert (EQ : events (bind (try_finally (error_path (link i)) fin)
                         (fun _ => ret (Sleep 1%Q MqttLoop)) w)
               = events (try_finally (error_path (link i)) fin w)
               /\ is_halt (res (bind (try_finally (error_path (link i)) fin)
                                  (fun _ => ret (Sleep 1%Q MqttLoop)) w))
                  = is_halt (res (try_finally (error_path (link i)) fin w))).
  { unfold bind.
    destruct (try_finally (error_path (link i)) fin w) as [[[]|e|] wf evs];
      cbn; rewrite ?app_nil_r; split; reflexivity. }
  destruct EQ as [EQ1 EQ2]. cbv zeta. rewrite EQ1, EQ2, EV, HV.
  destruct (error_path_restarts (link i)).
  - rewrite before_app by assumption. cbn [before].
    rewrite !app_nil_r, RC, LC, RS. repeat split; reflexivity.
  - rewrite E, before_app by assumption. cbn [before is_loop_call].
    rewrite app_nil_r, RC, !count_ev_app, LC, RS.
    change (count_ev is_loop_call (EvClient Loop (final_r (link i)) :: tail))
      with (S (count_ev is_loop_call tail)).
    change (count_ev is_reset (EvClient Loop (final_r (link i)) :: tail))
      with (count_ev is_reset tail).
    rewrite LT, RT. cbn [orb Nat.add]. repeat split; try reflexivity. exact HT.
Qed.

(** ** The auto-close policy: check_open_time *)

Lemma check_open_time_eq (i : Inputs) (w : World) :
  check_open_time i w =
  if in_close_window (rtc_hour i) && py_eq (door_status (garage_state w)) (PyStr "Open") then
    if door_error (garage_state w) then mkOut (Exc NameError) w []
    else match motion (garage_state w) with
         | Some false =>
             mkOut (Ret (Sleep (inject_Z (DOOR_CLOSE_DELAY cfg)) PolicyAfterSleep)) w
                   [EvCreateTask activate_opener_co]
         | _ => mkOut (Ret Finished) w []
         end
  else mkOut (Ret Finished) w [].
Proof.
  unfold check_open_time.
  destruct (in_close_window (rtc_hour i)); [|reflexivity].
  destruct w as [[e m s t p] r]. cbn.
  destruct (py_eq s (PyStr "Open")), e, m as [[]|]; reflexivity.
Qed.

Lemma in_close_window_iff (hour : Z) :
  in_close_window hour = true
  <-> GARAGE_CLOSE_AFTER cfg <= hour \/ hour <= GARAGE_CLOSE_BEFORE cfg.
Proof.
  unfold in_close_window. rewrite orb_true_iff, !Z.leb_le. reflexivity.
Qed.

Lemma check_open_time_closes_iff (i : Inputs) (w : World) :
  (count_ev is_create_task (events (check_open_time i w)) = 1%nat
   <-> (GARAGE_CLOSE_AFTER cfg <= rtc_hour i \/ rtc_hour i <= GARAGE_CLOSE_BEFORE cfg)
       /\ door_status (garage_state w) = PyStr "Open"
       /\ door_error (garage_state w) = false
       /\ motion (garage_state w) = Some false)
  /\ (count_ev is_create_task (events (check_open_time i w)) <= 1)%nat.
Proof.
  rewrite check_open_time_eq, <- in_close_window_iff, <- py_eq_str_iff.
  destruct (in_close_window (rtc_hour i)),
    (py_eq (door_status (garage_state w)) (PyStr "Open")),
    (door_error (garage_state w)), (motion (garage_state w)) as [[]|];
    cbn; (split; [split; [intro H; try discriminate H; auto | intros (A & B & C & D); congruence] | lia]).
Qed.

(** Whatever the clock says, an evaluation that finds [door_error] set
    leaves it set and starts nothing. *)
Lemma check_open_time_keeps_error (i : Inputs) (w : World) :
  door_error (garage_state w) = true ->
  door_error (garage_state (final (check_open_time i w))) = true
  /\ events (check_open_time i w) = [].
Proof.
  intro H. rewrite check_open_time_eq, H.
  destruct (in_close_window (rtc_hour i) && _); cbn; auto.
Qed.

Lemma check_open_time_after_sleep_state (i : Inputs) (w : World) :
  let o := check_open_time_after_sleep i w in
  door_error (garage_state (final o)) = door_error (garage_state w)
  /\ door_status (garage_state (final o)) = PyCoroutine "get_door_state"
  /\ count_ev is_snapshot (events o) = 0%nat.
Proof.
  unfold check_open_time_after_sleep.
  destruct (json_dumps_instance platform) as [s|]; [|repeat split; reflexivity].
  destruct (link i) as [[[]|] [[]|] [[]|]]; repeat split; reflexivity.
Qed.

(** ** The position monitor: get_door_state *)

Lemma get_door_state_paused (i : Inputs) (w : World) :
  pause_door_check (garage_state w) = true ->
  get_door_state_iter i w = mkOut (Ret (Sleep 0%Q DoorLoop)) w [].
Proof.
  intro H. unfold get_door_state_iter, bind, get. cbn. rewrite H. reflexivity.
Qed.

Lemma publish_to_mqtt_entry (lk : Link) (topic topic' : string) (msg : Payload) (w : World) :
  (exists rest, events (publish_to_mqtt lk topic msg w) = EvPublishToMqtt topic msg :: rest)
  /\ count_ev (is_publish_to_mqtt topic') (events (publish_to_mqtt lk topic msg w))
     = (if String.eqb topic topic' then 1 else 0)%nat.
Proof.
  destruct lk as [[[]|] [[]|] [[]|]]; (split; [eexists; reflexivity|]);
    unfold count_ev; cbn; destruct (String.eqb topic topic'); reflexivity.
Qed.

Lemma classify_str (d : Q) : exists s, classify d = PyStr s.
Proof.
  unfold classify. destruct (Qltb d (inject_Z (DOOR_DISTANCE cfg))); eexists; reflexivity.
Qed.

(** A status that is a string has a JSON form on every platform. *)
Lemma json_str (g : Garage_state) (s : string) :
  door_status g = PyStr s ->
  json g = ret (PSnapshot (PyStr s) (door_error g) (motion g)).
Proof.
  intro H. unfold json. rewrite H. reflexivity.
Qed.

Lemma json_final (g : Garage_state) (w : World) :
  final (json g w) = w /\ events (json g w) = [].
Proof.
  unfold json.
  destruct (door_status g); [| |destruct (json_prints_coroutine platform)];
    split; reflexivity.
Qed.

Lemma get_door_state_unpaused (i : Inputs) (w : World) (d : Q) :
  pause_door_check (garage_state w) = false ->
  distance i = Measured d ->
  let o := get_door_state_iter i w in
  door_status (garage_state (final o)) = classify d
  /\ count_ev (is_publish_to_mqtt MQTT_GARAGE_STATE) (events o)
     = (if py_eq (door_status (garage_state w)) (classify d) then 0 else 1)%nat
  /\ (py_eq (door_status (garage_state w)) (classify d) = false ->
      exists rest,
        events o = EvPublishToMqtt MQTT_GARAGE_STATE
                     (PSnapshot (classify d) (door_error (garage_state w))
                                (motion (garage_state w))) :: rest).
Proof.
  intros Hp Hd. unfold get_door_state_iter.
  rewrite bind_get, Hp, Hd. cbn [read_distance]. rewrite bind_ret_l.
  fold (classify d).
  assert (K : (if Qltb d (inject_Z (DOOR_DISTANCE cfg))
               then set_door_status (PyStr "Open")
               else set_door_status (PyStr "Closed")) = set_door_status (classify d)).
  { unfold classify. destruct (Qltb d (inject_Z (DOOR_DISTANCE cfg))); reflexivity. }
  rewrite K, bind_set_door_status, bind_get.
  cbn [garage_state door_status].
  destruct (py_eq (door_status (garage_state w)) (classify d)); cbn [negb].
  - rewrite bind_ret_l. cbn. repeat split; try reflexivity. intro; discriminate.
  - destruct (classify_str d) as [s Hs].
    rewrite bind_assoc, (json_str _ s) by exact Hs.
    rewrite bind_ret_l. cbn [door_error motion]. rewrite <- Hs.
    match goal with
    |- context [bind (publish_to_mqtt ?l ?t ?m) (fun _ => ret ?b) ?w'] =>
      destruct (bind_then_ret (publish_to_mqtt l t m) b w') as (F & E & _);
      rewrite F, E, publish_to_mqtt_final;
      destruct (publish_to_mqtt_entry l t MQTT_GARAGE_STATE m w') as [[rest E'] C];
      rewrite String.eqb_refl in C;
      (split; [reflexivity | split; [exact C | intros _; eexists; exact E']])
    end.
Qed.

(** ** Rules for [triple] *)

Section Rules.

Variable R : World -> World -> Prop.
Variable p : Event -> bool.
Hypothesis R_refl : forall w, R w w.
Hypothesis R_trans : forall w1 w2 w3, R w1 w2 -> R w2 w3 -> R w1 w3.
Hypothesis p_rtc : forall e, p e = true -> is_rtc_set e = true.

Lemma quiet_list (l : list Event) :
  forallb (fun e => negb (is_rtc_set e)) l = true -> count_ev p l = 0%nat.
Proof.
  unfold count_ev. induction l as [|e l IH]; cbn; intro H; [reflexivity|].
  apply andb_prop in H. destruct H as [He Hl].
  destruct (p e) eqn:E.
  - apply p_rtc in E. rewrite E in He. discriminate.
  - auto.
Qed.

Lemma triple_ret {A : Type} (P : A -> Prop) (a : A) :
  P a -> triple R p P (ret a).
Proof.
  intros H w. cbn [ret raise reset get emit res final events]. repeat split; auto. intros b E. injection E as <-. exact H.
Qed.

Lemma triple_raise {A : Type} (P : A -> Prop) (e : Exn) :
  triple R p P (raise e).
Proof.
  intros w. cbn [ret raise reset get emit res final events]. repeat split; auto. intros b E. discriminate E.
Qed.

Lemma triple_reset {A : Type} (P : A -> Prop) :
  triple R p P (@reset A).
Proof.
  intros w. cbn [ret raise reset get emit res final events]. repeat split; auto.
  - intros b E. discriminate E.
  - apply quiet_list. reflexivity.
Qed.

Lemma triple_get (P : Garage_state -> Prop) :
  (forall g, P g) -> triple R p P get.
Proof.
  intros H w. cbn [ret raise reset get emit res final events]. repeat split; auto.
Qed.

Lemma triple_emit (P : unit -> Prop) (e : Event) :
  is_rtc_set e = false -> P tt -> triple R p P (emit e).
Proof.
  intros He H w. cbn [ret raise reset get emit res final events]. repeat split; auto.
  - intros []. auto.
  - apply quiet_list. cbn. rewrite He. reflexivity.
Qed.

Lemma triple_bind {A B : Type} (P : B -> Prop) (m : M A) (k : A -> M B) :
  triple R p anything m -> (forall a, triple R p P (k a)) -> triple R p P (bind m k).
Proof.
  intros Hm Hk w. unfold bind.
  destruct (Hm w) as (R1 & _ & C1).
  destruct (m w) as [[a|e|] w1 ev1]; cbn [res final events] in *.
  - destruct (Hk a w1) as (R2 & P2 & C2).
    destruct (k a w1) as [r w2 ev2]; cbn [res final events] in *.
    rewrite count_ev_app, C1, C2. repeat split; eauto.
  - repeat split; auto. intros b E. discriminate E.
  - repeat split; auto. intros b E. discriminate E.
Qed.

Lemma triple_weaken {A : Type} (P P' : A -> Prop) (m : M A) :
  (forall a, P a -> P' a) -> triple R p P m -> triple R p P' m.
Proof.
  intros H Hm w. destruct (Hm w) as (R1 & P1 & C1). repeat split; auto.
Qed.

Lemma triple_try_except {A : Type} (P : A -> Prop) (body : M A)
  (handler : Exn -> option (M A)) :
  triple R p P body ->
  (forall e h, handler e = Some h -> triple R p P h) ->
  triple R p P (try_except body handler).
Proof.
  intros Hb Hh w. unfold try_except.
  destruct (Hb w) as (R1 & P1 & C1).
  destruct (body w) as [[a|e|] w1 ev1]; cbn [res final events] in *; try (repeat split; assumption).
  destruct (handler e) as [h|] eqn:E; cbn [res final events]; [|repeat split; assumption].
  destruct (Hh e h E w1) as (R2 & P2 & C2).
  destruct (h w1) as [r w2 ev2]; cbn [res final events] in *.
  rewrite count_ev_app, C1, C2. repeat split; eauto.
Qed.

Lemma triple_try_finally {A : Type} (P : A -> Prop) (body : M A) (fin : M unit) :
  triple R p P body -> triple R p anything fin ->
  triple R p P (try_finally body fin).
Proof.
  intros Hb Hf w. unfold try_finally.
  destruct (Hb w) as (R1 & P1 & C1).
  destruct (body w) as [[a|e|] w1 ev1]; cbn [res final events] in *; try (repeat split; assumption).
  all: destruct (Hf w1) as (R2 & _ & C2);
    destruct (fin w1) as [[[]|e'|] w2 ev2]; cbn [res final events] in *;
    rewrite count_ev_app, C1, C2; repeat split; eauto;
    intros b E; discriminate E.
Qed.

Lemma triple_publish_to_mqtt (lk : Link) (topic : string) (msg : Payload) :
  triple R p anything (publish_to_mqtt lk topic msg).
Proof.
  intro w. rewrite publish_to_mqtt_final. repeat split; auto.
  destruct lk as [[[]|] [[]|] [[]|]]; apply quiet_list; reflexivity.
Qed.

Lemma triple_message (lk : Link) (topic msg : string) :
  triple R p anything (message lk topic msg).
Proof.
  unfold message.
  destruct (String.eqb topic MQTT_DOOR_REQUEST); [|apply triple_ret; exact I].
  destruct (String.eqb msg "True"); [|apply triple_ret; exact I].
  apply triple_bind; [apply triple_publish_to_mqtt|].
  intros _. apply triple_emit; [reflexivity | exact I].
Qed.

Lemma triple_deliver (ds : list Delivery) :
  triple R p anything (deliver ds).
Proof.
  induction ds as [|d ds IH]; cbn [deliver].
  - apply triple_ret. exact I.
  - apply triple_bind; [apply triple_message | intros _; exact IH].
Qed.

Lemma triple_client (op : ClientOp) (answer : option Exn) :
  triple R p anything (client op answer).
Proof.
  unfold client. apply triple_bind; [apply triple_emit; [reflexivity | exact I]|].
  intros _. destruct answer; [apply triple_raise | apply triple_ret; exact I].
Qed.

Lemma triple_reset_on_link_error (e : Exn) (h : M unit) :
  reset_on_link_error e = Some h -> triple R p anything h.
Proof.
  destruct e; cbn; intro H; try discriminate H; injection H as <-; apply triple_reset.
Qed.

Lemma triple_error_path (lk : Link) :
  triple R p anything (error_path lk).
Proof.
  unfold error_path. apply triple_try_except; [apply triple_client|].
  intros e h H. destruct e; try discriminate H; injection H as <-.
  - apply triple_try_except; [apply triple_client | apply triple_reset_on_link_error].
  - apply triple_reset.
Qed.

End Rules.

(** ** Every segment of every task *)

Lemma frame_refl (pc : TaskPc) (w : World) : frame pc w w.
Proof.
  unfold frame, keeps_pause_and_relay, keeps_motion, motion_stays_known.
  destruct pc; cbn; auto.
Qed.

Lemma frame_trans (pc : TaskPc) (w1 w2 w3 : World) :
  frame pc w1 w2 -> frame pc w2 w3 -> frame pc w1 w3.
Proof.
  unfold frame, keeps_pause_and_relay, keeps_motion, motion_stays_known.
  destruct pc; cbn; intuition congruence.
Qed.

Lemma counted_rtc (pc : TaskPc) (e : Event) :
  counted pc e = true -> is_rtc_set e = true.
Proof.
  unfold counted, no_event. destruct (eqb_pc pc RtcStart); auto. discriminate.
Qed.

Ltac side pc :=
  first [ exact (frame_refl pc) | exact (frame_trans pc) | exact (counted_rtc pc)
        | exact I | reflexivity ].

Ltac leaf :=
  let w := fresh "w" in
  intro w;
  unfold frame, keeps_pause_and_relay, keeps_motion, motion_stays_known, anything;
  cbn;
  repeat split; intros; auto; try discriminate; try congruence.

Ltac rule pc :=
  match goal with
  | |- forall e h, _ = Some h -> triple _ _ _ _ =>
      let e := fresh "e" in let h := fresh "h" in let H := fresh "H" in
      intros e h H; destruct e; cbn in H; try discriminate H; injection H as <-
  | |- forall _, triple _ _ _ _ => intro
  | |- triple _ _ _ (bind _ _) => apply triple_bind; try (side pc)
  | |- triple _ _ _ (ret _) => apply triple_ret; try (side pc)
  | |- triple _ _ _ (raise _) => apply triple_raise; try (side pc)
  | |- triple _ _ _ reset => apply triple_reset; try (side pc)
  | |- triple _ _ _ (publish_to_mqtt _ _ _) =>
      apply triple_publish_to_mqtt; try (side pc)
  | |- triple _ _ _ (deliver _) => apply triple_deliver; try (side pc)
  | |- triple _ _ _ (client _ _) => apply triple_client; try (side pc)
  | |- triple _ _ _ (try_except _ _) => apply triple_try_except; try (side pc)
  | |- triple _ _ _ (try_finally _ _) => apply triple_try_finally; try (side pc)
  | |- triple _ _ _ (if ?b then _ else _) => destruct b
  | |- triple _ _ _ (match ?x with _ => _ end) => destruct x
  | |- triple _ _ _ (emit _) => solve [apply triple_emit; side pc]
  | |- triple _ _ _ get => apply triple_get; try (side pc); try (intro; exact I)
  end.

Ltac segment pc :=
  unfold resume, get_motion_state_iter, get_door_state_start, get_door_state_iter,
    get_sensor_data_iter, get_system_data_iter, mqtt_publish_loop_iter,
    json, json_dumps_system,
    mqtt_client_loop_iter, client_loop, update_rtc, int, read_distance,
    check_open_time, check_open_time_after_sleep, load_local,
    activate_opener_start, activate_opener_pulse, activate_opener_settle;
  cbv zeta;
  repeat rule pc;
  try leaf.

Lemma resume_triple (pc : TaskPc) (i : Inputs) :
  triple (frame pc) (counted pc) (fun n => next_ok pc n = true) (resume pc i).
Proof.
  destruct pc.
  - segment MotionLoop.
  - segment DoorStart.
  - segment DoorLoop.
  - segment SensorLoop.
  - segment SystemLoop.
  - segment RtcStart.
  - segment PolicyStart.
  - segment PolicyAfterSleep.
  - segment MqttLoop.
  - segment PublishLoop.
  - segment OpenerStart.
  - segment OpenerPulse.
  - segment OpenerSettle.
Qed.

Lemma resume_frame (pc : TaskPc) (i : Inputs) (w : World) :
  frame pc w (final (resume pc i w)).
Proof. apply (resume_triple pc i w). Qed.

Lemma resume_next (pc : TaskPc) (i : Inputs) (w : World) (n : Next) :
  res (resume pc i w) = Ret n -> next_ok pc n = true.
Proof. apply (resume_triple pc i w). Qed.

Lemma resume_rtc_quiet (pc : TaskPc) (i : Inputs) (w : World) :
  eqb_pc pc RtcStart = false ->
  count_ev is_rtc_set (events (resume pc i w)) = 0%nat.
Proof.
  intro H. destruct (resume_triple pc i w) as (_ & _ & C).
  unfold counted in C. rewrite H in C. exact C.
Qed.

Lemma bind_int {B : Type} (s : string) (k : Z -> M B) (w : World) :
  bind (int s) k w
  = match int_of_str platform s with
    | Some z => k z w
    | None => mkOut (Exc ValueError) w []
    end.
Proof.
  unfold int. destruct (int_of_str platform s).
  - apply bind_ret_l.
  - reflexivity.
Qed.

Lemma bind_emit_events {B : Type} (e : Event) (k : unit -> M B) (w : World) :
  events (bind (emit e) k w) = e :: events (k tt w).
Proof. reflexivity. Qed.

Lemma update_rtc_sets_once (i : Inputs) (w : World) :
  (count_ev is_rtc_set (events (update_rtc i w)) <= 1)%nat.
Proof.
  unfold update_rtc. rewrite bind_emit_events.
  change (count_ev is_rtc_set (EvHttpGet :: ?l)) with (count_ev is_rtc_set l).
  destruct (http_response i) as [e|r]; [cbn; lia|].
  repeat (rewrite bind_int;
          match goal with
          | |- context [int_of_str platform ?s] =>
              destruct (int_of_str platform s); [|cbn; lia]
          end).
  destruct (dict_get (dayOfTheWeek r) day_lookup).
  - rewrite bind_ret_l. cbn. lia.
  - cbn. lia.
Qed.

(** ** The event loop *)

Lemma count_pc_app (q : TaskPc) (l1 l2 : list TaskPc) :
  count_pc q (l1 ++ l2) = (count_pc q l1 + count_pc q l2)%nat.
Proof.
  unfold count_pc. rewrite filter_app, length_app. reflexivity.
Qed.

Lemma count_pc_cons (q pc : TaskPc) (l : list TaskPc) :
  count_pc q (pc :: l) = (one q pc + count_pc q l)%nat.
Proof.
  unfold count_pc, one. cbn. destruct (eqb_pc q pc); reflexivity.
Qed.

Lemma count_pc_set_nth (q pc pc' : TaskPc) (n : nat) (l : list TaskPc) :
  nth_error l n = Some pc ->
  (count_pc q (set_nth n pc' l) + one q pc = count_pc q l + one q pc')%nat.
Proof.
  revert n. induction l as [|x l IH]; intros [|n] H; cbn in H; try discriminate.
  - injection H as ->. cbn [set_nth]. rewrite !count_pc_cons. lia.
  - cbn [set_nth]. rewrite !count_pc_cons. specialize (IH n H). lia.
Qed.

Lemma count_pc_drop_nth (q pc : TaskPc) (n : nat) (l : list TaskPc) :
  nth_error l n = Some pc ->
  (count_pc q (drop_nth n l) + one q pc = count_pc q l)%nat.
Proof.
  revert n. induction l as [|x l IH]; intros [|n] H; cbn in H; try discriminate.
  - injection H as ->. cbn [drop_nth]. rewrite !count_pc_cons. lia.
  - cbn [drop_nth]. rewrite !count_pc_cons. specialize (IH n H). lia.
Qed.

Lemma count_pc_created (q : TaskPc) (evs : list Event) :
  eqb_pc q OpenerStart = false -> count_pc q (created evs) = 0%nat.
Proof.
  intro H. unfold created. induction evs as [|e evs IH]; [reflexivity|].
  cbn [flat_map]. rewrite count_pc_app, IH.
  destruct e as [| | |[]| |]; try reflexivity.
  rewrite count_pc_cons. unfold one. rewrite H. reflexivity.
Qed.

Lemma sys_resume_counts (q : TaskPc) (n : nat) (i : Inputs) (s : System) (pc : TaskPc) :
  status s = Running ->
  nth_error (pool s) n = Some pc ->
  eqb_pc q OpenerStart = false ->
  let s' := sys_resume n i s in
  count_pc q (resumed s') = (count_pc q (resumed s) + one q pc)%nat
  /\ (count_pc q (pool s') + one q pc
      = count_pc q (pool s) + goes_to q (res (resume pc i (sys_world s))))%nat.
Proof.
  intros Hs Hn Hq. unfold sys_resume. rewrite Hs, Hn. cbn [resumed pool].
  split.
  - rewrite count_pc_app, count_pc_cons.
    change (count_pc q []) with 0%nat. lia.
  - rewrite count_pc_app, count_pc_created by assumption.
    destruct (res (resume pc i (sys_world s))) as [[d pc'|]|e|]; cbn [goes_to].
    + pose proof (count_pc_set_nth q pc pc' n (pool s) Hn). lia.
    + pose proof (count_pc_drop_nth q pc n (pool s) Hn). lia.
    + pose proof (count_pc_drop_nth q pc n (pool s) Hn). lia.
    + pose proof (count_pc_drop_nth q pc n (pool s) Hn). lia.
Qed.

Lemma sys_resume_idle (n : nat) (i : Inputs) (s : System) :
  status s <> Running \/ nth_error (pool s) n = None ->
  sys_resume n i s = s.
Proof.
  unfold sys_resume. intros [H|H].
  - destruct (status s); [contradiction|reflexivity].
  - rewrite H. destruct (status s); reflexivity.
Qed.

Lemma sys_resume_fields (n : nat) (i : Inputs) (s : System) (pc : TaskPc) :
  status s = Running ->
  nth_error (pool s) n = Some pc ->
  let o := resume pc i (sys_world s) in
  let s' := sys_resume n i s in
  sys_world s' = final o
  /\ sys_log s' = sys_log s ++ events o
  /\ raised s' = match res o with Exc e => raised s ++ [(pc, e)] | _ => raised s end
  /\ status s' = match res o with Halt => Restarted | _ => Running end.
Proof.
  intros Hs Hn. unfold sys_resume. rewrite Hs, Hn. cbn. repeat split.
Qed.

Lemma sys_inv_boot : sys_inv boot.
Proof.
  unfold sys_inv. cbn. repeat split; lia.
Qed.

Lemma sys_inv_step (n : nat) (i : Inputs) (s : System) :
  sys_inv s -> sys_inv (sys_resume n i s).
Proof.
  intro I.
  destruct (status s) eqn:Hs;
    [|rewrite sys_resume_idle; [exact I | left; congruence]].
  destruct (nth_error (pool s) n) as [pc|] eqn:Hn;
    [|rewrite sys_resume_idle; [exact I | right; assumption]].
  destruct (sys_resume_fields n i s pc Hs Hn) as (_ & HL & HR & HS).
  pose proof (fun q H => sys_resume_counts q n i s pc Hs Hn H) as C.
  pose proof (C PolicyStart eq_refl) as C1.
  pose proof (C PolicyAfterSleep eq_refl) as C2.
  pose proof (C RtcStart eq_refl) as C3.
  pose proof (C MotionLoop eq_refl) as C4.
  pose proof (C DoorStart eq_refl) as C5.
  pose proof (C DoorLoop eq_refl) as C6.
  pose proof (C SensorLoop eq_refl) as C7.
  pose proof (C SystemLoop eq_refl) as C8.
  pose proof (C MqttLoop eq_refl) as C9.
  pose proof (C PublishLoop eq_refl) as C10.
  clear C.
  pose proof (resume_next pc i (sys_world s)) as N.
  assert (Q : (count_ev is_rtc_set (events (resume pc i (sys_world s))) <= one RtcStart pc)%nat).
  { destruct (eqb_pc pc RtcStart) eqn:E.
    - destruct pc; try discriminate E. cbn. apply update_rtc_sets_once.
    - rewrite resume_rtc_quiet by assumption. lia. }
  cbv zeta in *.
  remember (sys_resume n i s) as s' eqn:Es'. clear Es'.
  remember (resume pc i (sys_world s)) as o eqn:Eo. clear Eo.
  destruct I as (I1 & I2 & I3 & I4 & I5).
  unfold sys_inv. rewrite HL, count_ev_app.
  assert (A : raised s' = [] -> status s' = Running ->
              raised s = [] /\ exists d pc', res o = Ret (Sleep d pc')
                                         \/ (res o = Ret Finished)).
  { rewrite HR, HS. destruct (res o) as [[d pc'|]|e|]; intros R1 R2.
    - split; [assumption|]. exists d, pc'. left. reflexivity.
    - split; [assumption|]. exists 0%Q, pc. right. reflexivity.
    - destruct (raised s); discriminate R1.
    - discriminate R2. }
  destruct (res o) as [[d pc'|]|e|] eqn:Er.
  - specialize (N _ eq_refl).
    destruct pc, pc'; try discriminate N; unfold goes_to, one in *; cbn [eqb_pc] in *;
      (refine (conj _ (conj _ (conj _ (conj _ _)))); [lia|lia|lia|lia|]);
      intros R1 R2; destruct (A R1 R2) as (R0 & _); specialize (I5 R0 Hs); lia.
  - specialize (N _ eq_refl).
    destruct pc; try discriminate N; unfold goes_to, one in *; cbn [eqb_pc] in *;
      (refine (conj _ (conj _ (conj _ (conj _ _)))); [lia|lia|lia|lia|]);
      intros R1 R2; destruct (A R1 R2) as (R0 & _); specialize (I5 R0 Hs); lia.
  - refine (conj _ (conj _ (conj _ (conj _ _))));
      try (destruct pc; unfold goes_to, one in *; cbn [eqb_pc] in *; lia).
    intros R1 R2; destruct (A R1 R2) as (_ & d & pc' & [X|X]); discriminate X.
  - refine (conj _ (conj _ (conj _ (conj _ _))));
      try (destruct pc; unfold goes_to, one in *; cbn [eqb_pc] in *; lia).
    intros R1 R2; destruct (A R1 R2) as (_ & d & pc' & [X|X]); discriminate X.
Qed.

Lemma sys_inv_exec (sched : list (nat * Inputs)) (s : System) :
  sys_inv s -> sys_inv (exec sched s).
Proof.
  revert s. induction sched as [|[n i] sched IH]; intros s I; [exact I|].
  cbn [exec fold_left]. apply IH. apply sys_inv_step. exact I.
Qed.

(** ** The motion monitor: get_motion_state *)

Lemma get_motion_state_first (i : Inputs) (w : World) :
  motion_timeout (garage_state w) = 0%Q ->
  (0 < now i)%Q ->
  motion (garage_state (final (get_motion_state_iter i w)))
  = if pir_value i
    then (if Qltb (float_add platform (now_trigger i) (inject_Z (MOTION_TIMEOUT cfg))) (now i)
          then Some false else Some true)
    else Some false.
Proof.
  intros Ht Hn. unfold get_motion_state_iter.
  destruct w as [[e m s t p] r]. cbn in Ht. subst t.
  apply Qltb_lt in Hn.
  destruct (pir_value i).
  - destruct (Qltb (float_add platform (now_trigger i) (inject_Z (MOTION_TIMEOUT cfg))) (now i)) eqn:E;
      cbv [bind try_except set_motion_timeout set_motion get put ret
           res final events garage_state relay_value door_error motion door_status
           motion_timeout pause_door_check app];
      rewrite E; reflexivity.
  - cbv [bind try_except set_motion_timeout set_motion get put ret
         res final events garage_state relay_value door_error motion door_status
         motion_timeout pause_door_check app];
      rewrite Hn; reflexivity.
Qed.

Lemma sys_resume_frame (n : nat) (i : Inputs) (s : System) (pc : TaskPc) :
  status s = Running ->
  nth_error (pool s) n = Some pc ->
  frame pc (sys_world s) (sys_world (sys_resume n i s)).
Proof.
  intros Hs Hn.
  destruct (sys_resume_fields n i s pc Hs Hn) as (HW & _). cbv zeta in HW.
  rewrite HW. apply resume_frame.
Qed.

Lemma sys_resume_motion_known (n : nat) (i : Inputs) (s : System) :
  motion_stays_known (sys_world s) (sys_world (sys_resume n i s)).
Proof.
  destruct (status s) eqn:Hs;
    [|rewrite sys_resume_idle; [intro; assumption | left; congruence]].
  destruct (nth_error (pool s) n) as [pc|] eqn:Hn;
    [|rewrite sys_resume_idle; [intro; assumption | right; assumption]].
  apply (sys_resume_frame n i s pc Hs Hn).
Qed.

Lemma exec_motion_known (sched : list (nat * Inputs)) (s : System) :
  motion_stays_known (sys_world s) (sys_world (exec sched s)).
Proof.
  revert s. induction sched as [|[n i] sched IH]; intros s H; [exact H|].
  cbn [exec fold_left]. apply IH. apply sys_resume_motion_known. exact H.
Qed.

Lemma sys_resume_resumed (q : TaskPc) (n : nat) (i : Inputs) (s : System) :
  (count_pc q (resumed s) <= count_pc q (resumed (sys_resume n i s)))%nat.
Proof.
  unfold sys_resume.
  destruct (status s); [|lia].
  destruct (nth_error (pool s) n); [|lia].
  cbn [resumed]. rewrite count_pc_app. lia.
Qed.

Lemma exec_resumed (q : TaskPc) (sched : list (nat * Inputs)) (s : System) :
  (count_pc q (resumed s) <= count_pc q (resumed (exec sched s)))%nat.
Proof.
  revert s. induction sched as [|[n i] sched IH]; intro s; [cbn; lia|].
  cbn [exec fold_left].
  pose proof (sys_resume_resumed q n i s). specialize (IH (sys_resume n i s)).
  unfold exec in IH. cbn [fst snd]. lia.
Qed.

(** As long as [get_motion_state] was not resumed, nothing writes the
    motion state. *)
Lemma exec_keeps_motion (sched : list (nat * Inputs)) (s : System) :
  count_pc MotionLoop (resumed (exec sched s)) = count_pc MotionLoop (resumed s) ->
  keeps_motion (sys_world s) (sys_world (exec sched s)).
Proof.
  revert s. induction sched as [|[n i] sched IH]; intros s H.
  - split; reflexivity.
  - cbn [exec fold_left fst snd] in *. fold (exec sched (sys_resume n i s)) in *.
    pose proof (sys_resume_resumed MotionLoop n i s) as M1.
    pose proof (exec_resumed MotionLoop sched (sys_resume n i s)) as M2.
    assert (E1 : count_pc MotionLoop (resumed (sys_resume n i s))
                 = count_pc MotionLoop (resumed s)) by lia.
    assert (K : keeps_motion (sys_world s) (sys_world (sys_resume n i s))).
    { destruct (status s) eqn:Hs;
        [|rewrite sys_resume_idle; [split; reflexivity | left; congruence]].
      destruct (nth_error (pool s) n) as [pc|] eqn:Hn;
        [|rewrite sys_resume_idle; [split; reflexivity | right; assumption]].
      destruct (sys_resume_counts MotionLoop n i s pc Hs Hn eq_refl) as [C _].
      pose proof (sys_resume_frame n i s pc Hs Hn) as (_ & F & _).
      destruct pc; try exact F.
      unfold one in C. cbn in C. lia. }
    specialize (IH (sys_resume n i s)).
    destruct IH as [A B]; [lia|]. destruct K as [A' B'].
    split; congruence.
Qed.

(** ** The relay actuator: activate_opener *)

Lemma run_segments_keeps (l : list (TaskPc * Inputs)) (w : World) :
  forallb (fun x => negb (is_opener (fst x))) l = true ->
  keeps_pause_and_relay w (run_segments l w).
Proof.
  revert w. induction l as [|[pc i] l IH]; intros w H.
  - split; reflexivity.
  - cbn in H. apply andb_prop in H. destruct H as [Hpc Hl].
    apply negb_true_iff in Hpc.
    cbn [run_segments fold_left fst snd].
    fold (run_segments l (final (resume pc i w))).
    destruct (IH (final (resume pc i w)) Hl) as [A B].
    destruct (resume_frame pc i w) as (F & _). rewrite Hpc in F.
    destruct F as [A' B']. split; congruence.
Qed.

Lemma resume_keeps_pause (pc : TaskPc) (i : Inputs) (w : World) :
  is_opener pc = false ->
  pause_door_check (garage_state (final (resume pc i w)))
  = pause_door_check (garage_state w).
Proof.
  intro H. destruct (resume_frame pc i w) as (F & _). rewrite H in F. apply F.
Qed.



(** ** The callback: message *)

Lemma message_request (lk : Link) (w : World) :
  let o := message lk MQTT_DOOR_REQUEST "True" w in
  count_ev is_ack (events o) = (if error_path_restarts lk then 0 else 1)%nat
  /\ count_ev is_create_task (events o)
     = (match res o with Ret _ => 1 | _ => 0 end)%nat
  /\ count_ev (is_publish_to_mqtt MQTT_DOOR_REQUEST) (events o) = 1%nat.
Proof.
  unfold message. rewrite String.eqb_refl. cbn [String.eqb Ascii.eqb Bool.eqb].
  destruct lk as [[[]|] [[]|] [[]|]]; unfold count_ev; cbn;
    rewrite ?String.eqb_refl; repeat split; reflexivity.
Qed.

Lemma message_healthy (w : World) :
  message healthy MQTT_DOOR_REQUEST "True" w
  = mkOut (Ret tt) w
      [ EvPublishToMqtt MQTT_DOOR_REQUEST (PText "False");
        EvClient IsConnected None;
        EvClient (Publish MQTT_DOOR_REQUEST (PText "False")) None;
        EvCreateTask activate_opener_co ].
Proof.
  unfold message. rewrite String.eqb_refl. reflexivity.
Qed.

Lemma deliver_requests (n : nat) (w : World) :
  let o := deliver (repeat request n) w in
  res o = Ret tt
  /\ count_ev is_create_task (events o) = n
  /\ count_ev is_ack (events o) = n.
Proof.
  induction n as [|n IH]; [repeat split; reflexivity|].
  destruct IH as (R & C & A).
  assert (E : deliver (repeat request (S n)) w
              = bind (message healthy MQTT_DOOR_REQUEST "True")
                     (fun _ => deliver (repeat request n)) w) by reflexivity.
  cbv zeta. rewrite E. unfold bind. rewrite message_healthy. cbn [res final events].
  rewrite !count_ev_app, C, A, R.
  unfold count_ev. cbn [filter is_create_task is_ack List.length].
  rewrite String.eqb_refl. repeat split.
Qed.

(** ** Further frames *)

Lemma no_event_rtc (e : Event) : no_event e = true -> is_rtc_set e = true.
Proof. discriminate. Qed.

Lemma frame_status_refl (pc : TaskPc) (w : World) : frame_status pc w w.
Proof.
  unfold frame_status. destruct (writes_status pc); auto.
Qed.

Lemma frame_status_trans (pc : TaskPc) (w1 w2 w3 : World) :
  frame_status pc w1 w2 -> frame_status pc w2 w3 -> frame_status pc w1 w3.
Proof.
  unfold frame_status. destruct (writes_status pc); intuition congruence.
Qed.

Ltac side_status pc :=
  first [ exact (frame_status_refl pc) | exact (frame_status_trans pc)
        | exact no_event_rtc | exact I | reflexivity ].

Ltac leaf_status :=
  let w := fresh "w" in
  intro w;
  unfold frame_status, anything;
  cbn;
  repeat split; intros; auto; try discriminate; try congruence.

Ltac rule_status pc :=
  match goal with
  | |- forall e h, _ = Some h -> triple _ _ _ _ =>
      let e := fresh "e" in let h := fresh "h" in let H := fresh "H" in
      intros e h H; destruct e; cbn in H; try discriminate H; injection H as <-
  | |- forall _, triple _ _ _ _ => intro
  | |- triple _ _ _ (bind _ _) => apply triple_bind; try (side_status pc)
  | |- triple _ _ _ (ret _) => apply triple_ret; try (side_status pc)
  | |- triple _ _ _ (raise _) => apply triple_raise; try (side_status pc)
  | |- triple _ _ _ reset => apply triple_reset; try (side_status pc)
  | |- triple _ _ _ (publish_to_mqtt _ _ _) =>
      apply triple_publish_to_mqtt; try (side_status pc)
  | |- triple _ _ _ (deliver _) => apply triple_deliver; try (side_status pc)
  | |- triple _ _ _ (client _ _) => apply triple_client; try (side_status pc)
  | |- triple _ _ _ (try_except _ _) => apply triple_try_except; try (side_status pc)
  | |- triple _ _ _ (try_finally _ _) => apply triple_try_finally; try (side_status pc)
  | |- triple _ _ _ (if ?b then _ else _) => destruct b
  | |- triple _ _ _ (match ?x with _ => _ end) => destruct x
  | |- triple _ _ _ (emit _) => solve [apply triple_emit; side_status pc]
  | |- triple _ _ _ get => apply triple_get; try (side_status pc); try (intro; exact I)
  end.

Ltac segment_status pc :=
  unfold resume, get_motion_state_iter, get_door_state_start, get_door_state_iter,
    get_sensor_data_iter, get_system_data_iter, mqtt_publish_loop_iter,
    json, json_dumps_system,
    mqtt_client_loop_iter, client_loop, update_rtc, int, read_distance,
    activate_opener_start, activate_opener_pulse, activate_opener_settle;
  cbv zeta;
  repeat rule_status pc;
  try leaf_status.

Lemma check_open_time_final (i : Inputs) (w : World) :
  final (check_open_time i w) = w.
Proof.
  rewrite check_open_time_eq.
  destruct (in_close_window (rtc_hour i) && _); [|reflexivity].
  destruct (door_error (garage_state w)); [reflexivity|].
  destruct (motion (garage_state w)) as [[]|]; reflexivity.
Qed.

Lemma resume_frame_status (pc : TaskPc) (i : Inputs) (w : World) :
  frame_status pc w (final (resume pc i w)).
Proof.
  assert (T : pc <> PolicyStart -> pc <> PolicyAfterSleep ->
              triple (frame_status pc) no_event anything (resume pc i)).
  { intros N1 N2. destruct pc; try congruence.
    - segment_status MotionLoop.
    - segment_status DoorStart.
    - segment_status DoorLoop.
    - segment_status SensorLoop.
    - segment_status SystemLoop.
    - segment_status RtcStart.
    - segment_status MqttLoop.
    - segment_status PublishLoop.
    - segment_status OpenerStart.
    - segment_status OpenerPulse.
    - segment_status OpenerSettle. }
  destruct pc; try (apply T; discriminate).
  - cbn [resume]. rewrite check_open_time_final. apply frame_status_refl.
  - cbn [resume]. destruct (check_open_time_after_sleep_state i w) as (E & _).
    split; [exact E | exact I].
Qed.

(** ** update_rtc, case by case *)

Lemma update_rtc_eq (i : Inputs) (w : World) :
  update_rtc i w
  = match http_response i with
    | inl e => mkOut (Exc e) w [EvHttpGet]
    | inr r =>
        match struct_time_of r with
        | inl e => mkOut (Exc e) w [EvHttpGet]
        | inr t => mkOut (Ret Finished) w [EvHttpGet; EvRtcSet t]
        end
    end.
Proof.
  unfold update_rtc, struct_time_of.
  destruct (http_response i) as [e|r]; [reflexivity|].
  unfold bind at 1. cbn [emit res final events app].
  repeat (rewrite bind_int;
          match goal with
          | |- context [int_of_str platform ?s] =>
              destruct (int_of_str platform s); [|reflexivity]
          end).
  destruct (dict_get (dayOfTheWeek r) day_lookup); reflexivity.
Qed.

Lemma day_lookup_range (k : string) (v : Z) :
  dict_get k day_lookup = Some v -> (0 <= v <= 6)%Z.
Proof.
  unfold day_lookup. cbn [dict_get].
  repeat match goal with
         | |- context [String.eqb k ?s] => destruct (String.eqb k s)
         end; intro H; try discriminate H; injection H as <-; lia.
Qed.

Lemma substring_short (n m : nat) (s : string) :
  (String.length s <= n)%nat -> substring n m s = EmptyString.
Proof.
  revert n m. induction s as [|c s IH]; intros n m H.
  - destruct n, m; reflexivity.
  - destruct n as [|n]; cbn in H; [lia|].
    cbn [substring]. apply IH. lia.
Qed.

(** ** More on the event loop *)

Lemma sys_resume_cases (n : nat) (i : Inputs) (s : System) :
  sys_resume n i s = s
  \/ exists pc, status s = Running /\ nth_error (pool s) n = Some pc.
Proof.
  destruct (status s) eqn:Hs;
    [|left; apply sys_resume_idle; left; congruence].
  destruct (nth_error (pool s) n) as [pc|] eqn:Hn;
    [|left; apply sys_resume_idle; right; assumption].
  right. exists pc. split; reflexivity.
Qed.

Lemma one_refl (pc : TaskPc) : one pc pc = 1%nat.
Proof. destruct pc; reflexivity. Qed.

Lemma count_pc_nth (pc : TaskPc) (n : nat) (l : list TaskPc) :
  nth_error l n = Some pc -> (1 <= count_pc pc l)%nat.
Proof.
  revert n. induction l as [|x l IH]; intros [|n] H; cbn in H; try discriminate.
  - injection H as ->. rewrite count_pc_cons, one_refl. lia.
  - rewrite count_pc_cons. specialize (IH n H). lia.
Qed.

Lemma sys_resume_door_error (n : nat) (i : Inputs) (s : System) :
  door_error (garage_state (sys_world (sys_resume n i s)))
  = door_error (garage_state (sys_world s)).
Proof.
  destruct (sys_resume_cases n i s) as [E|(pc & Hs & Hn)]; [rewrite E; reflexivity|].
  destruct (sys_resume_fields n i s pc Hs Hn) as (W & _). cbv zeta in W.
  rewrite W. apply resume_frame_status.
Qed.

Lemma exec_door_error (sched : list (nat * Inputs)) (s : System) :
  door_error (garage_state (sys_world (exec sched s)))
  = door_error (garage_state (sys_world s)).
Proof.
  revert s. induction sched as [|[n i] sched IH]; intro s; [reflexivity|].
  cbn [exec fold_left fst snd]. fold (exec sched (sys_resume n i s)).
  rewrite IH. apply sys_resume_door_error.
Qed.

(** As long as neither the loop of [get_door_state] nor the second half of
    [check_open_time] had a turn, [door_status] is as it was. *)
Lemma exec_keeps_status (sched : list (nat * Inputs)) (s : System) :
  count_pc DoorLoop (resumed (exec sched s)) = count_pc DoorLoop (resumed s) ->
  count_pc PolicyAfterSleep (resumed (exec sched s))
  = count_pc PolicyAfterSleep (resumed s) ->
  door_status (garage_state (sys_world (exec sched s)))
  = door_status (garage_state (sys_world s)).
Proof.
  revert s. induction sched as [|[n i] sched IH]; intros s H1 H2; [reflexivity|].
  cbn [exec fold_left fst snd] in *. fold (exec sched (sys_resume n i s)) in *.
  pose proof (sys_resume_resumed DoorLoop n i s) as A1.
  pose proof (exec_resumed DoorLoop sched (sys_resume n i s)) as A2.
  pose proof (sys_resume_resumed PolicyAfterSleep n i s) as B1.
  pose proof (exec_resumed PolicyAfterSleep sched (sys_resume n i s)) as B2.
  rewrite IH by lia.
  destruct (sys_resume_cases n i s) as [E|(pc & Hs & Hn)]; [rewrite E; reflexivity|].
  destruct (sys_resume_counts DoorLoop n i s pc Hs Hn eq_refl) as [C1 _].
  destruct (sys_resume_counts PolicyAfterSleep n i s pc Hs Hn eq_refl) as [C2 _].
  destruct (sys_resume_fields n i s pc Hs Hn) as (W & _). cbv zeta in W.
  rewrite W. destruct (resume_frame_status pc i (sys_world s)) as (_ & F).
  destruct pc; try exact F; unfold one in *; cbn [eqb_pc] in *; lia.
Qed.

Lemma actuator_inv_boot : actuator_inv boot.
Proof.
  split; cbn; intro H; discriminate H.
Qed.

Lemma actuator_inv_step (n : nat) (i : Inputs) (s : System) :
  actuator_inv s -> actuator_inv (sys_resume n i s).
Proof.
  intro I.
  destruct (sys_resume_cases n i s) as [E|(pc & Hs & Hn)]; [rewrite E; exact I|].
  destruct (sys_resume_counts OpenerPulse n i s pc Hs Hn eq_refl) as [_ C1].
  destruct (sys_resume_counts OpenerSettle n i s pc Hs Hn eq_refl) as [_ C2].
  destruct (sys_resume_fields n i s pc Hs Hn) as (W & _). cbv zeta in W.
  pose proof (resume_next pc i (sys_world s)) as N.
  pose proof (resume_frame pc i (sys_world s)) as (F & _).
  destruct I as [I1 I2].
  unfold actuator_inv, openers_in_flight in *. rewrite W.
  destruct (is_opener pc) eqn:O.
  - destruct pc; try discriminate O; cbn [resume] in *;
      unfold activate_opener_start, activate_opener_pulse, activate_opener_settle in *;
      cbn in C1, C2 |- *; unfold one in *; cbn [eqb_pc] in *;
      split; intro H; try discriminate H; try (specialize (I1 H)); try (specialize (I2 H));
      lia.
  - destruct F as [FP FR]. rewrite FP, FR.
    assert (G : goes_to OpenerPulse (res (resume pc i (sys_world s))) = 0%nat
                /\ goes_to OpenerSettle (res (resume pc i (sys_world s))) = 0%nat).
    { destruct (res (resume pc i (sys_world s))) as [[d pc'|]|e|]; try (split; reflexivity).
      specialize (N _ eq_refl).
      destruct pc, pc'; try discriminate N; try discriminate O; split; reflexivity. }
    destruct G as [G1 G2]. rewrite G1 in C1. rewrite G2 in C2.
    assert (Z1 : one OpenerPulse pc = 0%nat) by (destruct pc; try discriminate O; reflexivity).
    assert (Z2 : one OpenerSettle pc = 0%nat) by (destruct pc; try discriminate O; reflexivity).
    split; intro H; [specialize (I1 H) | specialize (I2 H)]; lia.
Qed.

Lemma actuator_inv_exec (sched : list (nat * Inputs)) (s : System) :
  actuator_inv s -> actuator_inv (exec sched s).
Proof.
  revert s. induction sched as [|[n i] sched IH]; intros s I; [exact I|].
  cbn [exec fold_left]. apply IH. apply actuator_inv_step. exact I.
Qed.

(** Once [update_rtc] is no longer waiting for its turn, the clock is not
    written any more. *)
Lemma exec_rtc_done (sched : list (nat * Inputs)) (s : System) :
  count_pc RtcStart (pool s) = 0%nat ->
  count_ev is_rtc_set (sys_log (exec sched s)) = count_ev is_rtc_set (sys_log s).
Proof.
  revert s. induction sched as [|[n i] sched IH]; intros s H; [reflexivity|].
  cbn [exec fold_left fst snd]. fold (exec sched (sys_resume n i s)).
  destruct (sys_resume_cases n i s) as [E|(pc & Hs & Hn)];
    [rewrite E; apply IH; exact H|].
  destruct (sys_resume_counts RtcStart n i s pc Hs Hn eq_refl) as [_ C].
  destruct (sys_resume_fields n i s pc Hs Hn) as (_ & L & _). cbv zeta in L.
  pose proof (resume_next pc i (sys_world s)) as N.
  pose proof (count_pc_nth pc n (pool s) Hn) as P.
  assert (Q : eqb_pc pc RtcStart = false).
  { destruct pc; try reflexivity. lia. }
  assert (G : goes_to RtcStart (res (resume pc i (sys_world s))) = 0%nat).
  { destruct (res (resume pc i (sys_world s))) as [[d pc'|]|e|]; try reflexivity.
    specialize (N _ eq_refl). destruct pc, pc'; try discriminate N; reflexivity. }
  rewrite IH by lia.
  rewrite L, count_ev_app, resume_rtc_quiet by assumption. lia.
Qed.

(** ** The segments in closed form *)

Lemma get_motion_state_eq (i : Inputs) (w : World) :
  let t' := if pir_value i
            then (float_add platform (now_trigger i) (inject_Z (MOTION_TIMEOUT cfg)))
            else motion_timeout (garage_state w) in
  get_motion_state_iter i w
  = mkOut (Ret (Sleep 0%Q MotionLoop))
      {| garage_state :=
           {| door_error := door_error (garage_state w);
              motion := if Qltb t' (now i) then Some false
                        else if pir_value i then Some true
                        else motion (garage_state w);
              door_status := door_status (garage_state w);
              motion_timeout := t';
              pause_door_check := pause_door_check (garage_state w) |};
         relay_value := relay_value w |}
      [].
Proof.
  unfold get_motion_state_iter. destruct w as [[e m s t p] r].
  destruct (pir_value i);
    cbv [bind try_except set_motion_timeout set_motion get put ret
         res final events garage_state relay_value door_error motion door_status
         motion_timeout pause_door_check app];
    match goal with |- context [Qltb ?a ?b] => destruct (Qltb a b) end;
    reflexivity.
Qed.

Lemma publish_to_mqtt_calls (lk : Link) (topic : string) (msg : Payload) (w : World) :
  filter is_publish_call (events (publish_to_mqtt lk topic msg w))
  = if error_path_restarts lk then []
    else [EvClient (Publish topic msg) (final_r lk)].
Proof.
  destruct lk as [[[]|] [[]|] [[]|]]; reflexivity.
Qed.

Lemma publish_to_mqtt_entries (lk : Link) (topic : string) (msg : Payload) (w : World) :
  filter is_publish_entry (events (publish_to_mqtt lk topic msg w))
  = [EvPublishToMqtt topic msg]
  /\ count_ev is_create_task (events (publish_to_mqtt lk topic msg w)) = 0%nat.
Proof.
  destruct lk as [[[]|] [[]|] [[]|]]; split; reflexivity.
Qed.

(** A turn of a task that publishes one message and sleeps. *)
Lemma publish_then_sleep (lk : Link) (topic : string) (msg : Payload)
  (n : Next) (w : World) :
  let o := bind (publish_to_mqtt lk topic msg) (fun _ => ret n) w in
  final o = w
  /\ filter is_publish_entry (events o) = [EvPublishToMqtt topic msg]
  /\ filter is_publish_call (events o)
     = (if error_path_restarts lk then []
        else [EvClient (Publish topic msg) (final_r lk)])
  /\ count_ev is_create_task (events o) = 0%nat
  /\ res o = match res (publish_to_mqtt lk topic msg w) with
             | Ret _ => Ret n
             | Exc e => Exc e
             | Halt => Halt
             end.
Proof.
  destruct (bind_then_ret (publish_to_mqtt lk topic msg) n w) as (F & E & R).
  cbv zeta. rewrite F, E, R, publish_to_mqtt_final, publish_to_mqtt_calls.
  destruct (publish_to_mqtt_entries lk topic msg w) as [A B].
  rewrite A, B. repeat split.
Qed.

(** ** The callback, once more *)

Lemma message_other (lk : Link) (topic msg : string) (w : World) :
  String.eqb topic MQTT_DOOR_REQUEST && String.eqb msg "True" = false ->
  message lk topic msg w = mkOut (Ret tt) w [].
Proof.
  unfold message. intro H.
  destruct (String.eqb topic MQTT_DOOR_REQUEST); [|reflexivity].
  cbn [andb] in H. rewrite H. reflexivity.
Qed.

Lemma message_creates (lk : Link) (topic msg : string) (w : World) :
  (count_ev is_create_task (events (message lk topic msg w))
   <= if String.eqb topic MQTT_DOOR_REQUEST && String.eqb msg "True" then 1 else 0)%nat.
Proof.
  destruct (String.eqb topic MQTT_DOOR_REQUEST && String.eqb msg "True") eqn:E.
  - apply andb_prop in E. destruct E as [E1 E2].
    apply String.eqb_eq in E1, E2. subst topic msg.
    destruct (message_request lk w) as (_ & C & _). rewrite C.
    destruct (res (message lk MQTT_DOOR_REQUEST "True" w)); lia.
  - rewrite message_other by assumption. cbn. lia.
Qed.

Lemma deliver_creates (ds : list Delivery) (w : World) :
  (count_ev is_create_task (events (deliver ds w))
   <= List.length (filter is_request ds))%nat.
Proof.
  induction ds as [|d ds IH]; [cbn; lia|].
  cbn [deliver filter]. unfold bind.
  pose proof (message_creates (d_link d) (d_topic d) (d_message d) w) as C.
  pose proof (message_final (d_link d) (d_topic d) (d_message d) w) as F.
  fold (is_request d) in C.
  destruct (message (d_link d) (d_topic d) (d_message d) w) as [[[]|e|] wf evs];
    cbn [res final events] in *; subst;
    destruct (is_request d); cbn [List.length];
    rewrite ?count_ev_app; lia.
Qed.

Lemma error_path_creates (lk : Link) (w : World) :
  count_ev is_create_task (events (error_path lk w)) = 0%nat.
Proof.
  destruct lk as [[[]|] [[]|] f]; reflexivity.
Qed.

Lemma count_ev_cons (p : Event -> bool) (e : Event) (l : list Event) :
  count_ev p (e :: l) = ((if p e then 1 else 0) + count_ev p l)%nat.
Proof.
  unfold count_ev. cbn [filter]. destruct (p e); reflexivity.
Qed.

Lemma loop_attempt_creates (ds : list Delivery) (f : option Exn) (w : World) :
  count_ev is_create_task
    (events (try_except (client_loop ds f) reset_on_link_error w))
  = count_ev is_create_task (events (deliver ds w)).
Proof.
  unfold client_loop, try_except, bind, emit. cbn [res final events app].
  destruct (deliver ds w) as [[[]|e|] wf evs]; cbn [res final events].
  - destruct f as [[]|];
      cbn [raise ret reset_on_link_error res final events reset app];
      rewrite ?count_ev_cons, ?count_ev_app, ?count_ev_cons;
      cbn [is_create_task]; change (count_ev is_create_task []) with 0%nat; lia.
  - destruct e; cbn [reset_on_link_error res final events reset app];
      rewrite ?count_ev_cons, ?count_ev_app, ?count_ev_cons;
      cbn [is_create_task]; change (count_ev is_create_task []) with 0%nat; lia.
  - rewrite count_ev_cons. cbn [is_create_task]. lia.
Qed.

Lemma mqtt_client_loop_iter_creates (i : Inputs) (w : World) :
  (count_ev is_create_task (events (mqtt_client_loop_iter i w))
   <= List.length (filter is_request (inbound i)))%nat
  /\ (error_path_restarts (link i) = true ->
      count_ev is_create_task (events (mqtt_client_loop_iter i w)) = 0%nat)
  /\ final (mqtt_client_loop_iter i w) = w.
Proof.
  unfold mqtt_client_loop_iter. fold (error_path (link i)).
  set (fin := try_except (client_loop (inbound i) (final_r (link i))) reset_on_link_error).
  destruct (bind_then_ret (try_finally (error_path (link i)) fin)
              (Sleep 1%Q MqttLoop) w) as (F & E & _).
  rewrite F, E, try_finally_events.
  destruct (error_path_spec (link i) w) as (FW & H & _).
  rewrite FW, H, count_ev_app, error_path_creates.
  pose proof (deliver_creates (inbound i) w) as D.
  pose proof (loop_attempt_creates (inbound i) (final_r (link i)) w) as L.
  fold fin in L.
  split; [|split].
  - destruct (error_path_restarts (link i)); [cbn; lia | rewrite L; lia].
  - intro R. rewrite R. reflexivity.
  - unfold try_finally. 
    pose proof (error_path_spec (link i) w) as (FW' & _).
    destruct (error_path (link i) w) as [[a|e|] w1 ev1]; cbn [res final events] in *;
      subst w1; try reflexivity.
    all: unfold fin, try_except, client_loop, bind, emit; cbn [res final events];
      pose proof (deliver_final (inbound i) w) as DF;
      destruct (deliver (inbound i) w) as [[[]|x|] wf evs]; cbn [res final events] in *;
      subst wf; try reflexivity.
    all: try (destruct (final_r (link i)) as [[]|]; reflexivity).
    all: destruct x; reflexivity.
Qed.

(** Once [check_open_time] is in the pool at neither of its two places,
    it has no further turn. *)
Lemma exec_policy_gone (sched : list (nat * Inputs)) (s : System) :
  count_pc PolicyStart (pool s) = 0%nat ->
  count_pc PolicyAfterSleep (pool s) = 0%nat ->
  count_pc PolicyStart (resumed (exec sched s)) = count_pc PolicyStart (resumed s)
  /\ count_pc PolicyAfterSleep (resumed (exec sched s))
     = count_pc PolicyAfterSleep (resumed s).
Proof.
  revert s. induction sched as [|[n i] sched IH]; intros s H1 H2; [split; reflexivity|].
  cbn [exec fold_left fst snd]. fold (exec sched (sys_resume n i s)).
  destruct (sys_resume_cases n i s) as [E|(pc & Hs & Hn)];
    [rewrite E; apply IH; assumption|].
  destruct (sys_resume_counts PolicyStart n i s pc Hs Hn eq_refl) as [R1 C1].
  destruct (sys_resume_counts PolicyAfterSleep n i s pc Hs Hn eq_refl) as [R2 C2].
  pose proof (resume_next pc i (sys_world s)) as N.
  pose proof (count_pc_nth pc n (pool s) Hn) as P.
  assert (Q1 : one PolicyStart pc = 0%nat) by (destruct pc; try reflexivity; lia).
  assert (Q2 : one PolicyAfterSleep pc = 0%nat) by (destruct pc; try reflexivity; lia).
  assert (G : goes_to PolicyStart (res (resume pc i (sys_world s))) = 0%nat
              /\ goes_to PolicyAfterSleep (res (resume pc i (sys_world s))) = 0%nat).
  { destruct (res (resume pc i (sys_world s))) as [[d pc'|]|e|]; try (split; reflexivity).
    specialize (N _ eq_refl).
    destruct pc, pc'; try discriminate N; try (split; reflexivity); lia. }
  destruct G as [G1 G2].
  destruct (IH (sys_resume n i s)) as [A B]; [lia | lia |].
  split; lia.
Qed.

(** ** [json.dumps] and the tasks that publish at an interval *)

Lemma json_ret (g : Garage_state) :
  (forall fn, door_status g <> PyCoroutine fn)
  \/ json_prints_coroutine platform = true ->
  json g = ret (PSnapshot (door_status g) (door_error g) (motion g)).
Proof.
  intros [H | H]; unfold json.
  - destruct (door_status g) as [|s|fn]; try reflexivity.
    exfalso. apply (H fn). reflexivity.
  - destruct (door_status g) as [|s|fn]; try reflexivity.
    rewrite H. reflexivity.
Qed.

Lemma json_raise (g : Garage_state) (fn : string) :
  door_status g = PyCoroutine fn ->
  json_prints_coroutine platform = false ->
  json g = raise TypeError.
Proof.
  intros H1 H2. unfold json. rewrite H1, H2. reflexivity.
Qed.

Lemma mqtt_publish_loop_iter_ret (i : Inputs) (w : World) (p : Payload) :
  json (garage_state w) = ret p ->
  mqtt_publish_loop_iter i w
  = bind (publish_to_mqtt (link i) MQTT_GARAGE_STATE p)
      (fun _ => ret (Sleep 60%Q PublishLoop)) w.
Proof.
  intro H. unfold mqtt_publish_loop_iter.
  rewrite bind_get, H, bind_ret_l, bind_get, H, bind_ret_l. reflexivity.
Qed.

Lemma mqtt_publish_loop_iter_raise (i : Inputs) (w : World) (e : Exn) :
  json (garage_state w) = raise e ->
  mqtt_publish_loop_iter i w = mkOut (Exc e) w [].
Proof.
  intro H. unfold mqtt_publish_loop_iter.
  rewrite bind_get, H. reflexivity.
Qed.

Lemma get_system_data_iter_ret (i : Inputs) (w : World) :
  ipv4_address i = None \/ json_prints_address platform = true ->
  get_system_data_iter i w
  = bind (publish_to_mqtt (link i) MQTT_SYSTEM
            (PSystem (cpu_reset_reason i) (now i) (ipv4_address i) (board_board_id i)))
      (fun _ => ret (Sleep 60%Q SystemLoop)) w.
Proof.
  intro H. unfold get_system_data_iter, json_dumps_system.
  destruct (ipv4_address i) as [a|], (json_prints_address platform);
    try (rewrite bind_ret_l; reflexivity).
  exfalso. destruct H as [H | H]; discriminate H.
Qed.

Lemma get_system_data_iter_raise (i : Inputs) (w : World) :
  ipv4_address i <> None ->
  json_prints_address platform = false ->
  get_system_data_iter i w = mkOut (Exc TypeError) w [].
Proof.
  intros H1 H2. unfold get_system_data_iter, json_dumps_system.
  rewrite H2. destruct (ipv4_address i); [reflexivity | exfalso; apply H1; reflexivity].
Qed.

(** An unpaused turn of the position monitor, as far as the client sees
    it: the call of [mqtt_client.publish] and how the turn ends. *)
Lemma get_door_state_unpaused_calls (i : Inputs) (w : World) (d : Q) :
  pause_door_check (garage_state w) = false ->
  distance i = Measured d ->
  let o := get_door_state_iter i w in
  let snap := PSnapshot (classify d) (door_error (garage_state w))
                (motion (garage_state w)) in
  filter is_publish_call (events o)
  = (if py_eq (door_status (garage_state w)) (classify d) then []
     else if error_path_restarts (link i) then []
     else [EvClient (Publish MQTT_GARAGE_STATE snap) (final_r (link i))])
  /\ res o
     = (if py_eq (door_status (garage_state w)) (classify d)
        then Ret (Sleep 0%Q DoorLoop)
        else match res (publish_to_mqtt (link i) MQTT_GARAGE_STATE snap w) with
             | Ret _ => Ret (Sleep 0%Q DoorLoop)
             | Exc e => Exc e
             | Halt => Halt
             end).
Proof.
  intros Hp Hd. unfold get_door_state_iter.
  rewrite bind_get, Hp, Hd. cbn [read_distance]. rewrite bind_ret_l.
  fold (classify d).
  assert (K : (if Qltb d (inject_Z (DOOR_DISTANCE cfg))
               then set_door_status (PyStr "Open")
               else set_door_status (PyStr "Closed")) = set_door_status (classify d)).
  { unfold classify. destruct (Qltb d (inject_Z (DOOR_DISTANCE cfg))); reflexivity. }
  rewrite K, bind_set_door_status, bind_get.
  cbn [garage_state door_status].
  destruct (py_eq (door_status (garage_state w)) (classify d)); cbn [negb].
  - rewrite bind_ret_l. split; reflexivity.
  - destruct (classify_str d) as [s Hs].
    rewrite bind_assoc, (json_str _ s) by exact Hs.
    rewrite bind_ret_l. cbn [door_error motion]. rewrite <- Hs.
    match goal with
    |- context [bind (publish_to_mqtt ?l ?t ?m) (fun _ => ret ?b) ?w'] =>
      destruct (publish_then_sleep l t m b w') as (_ & _ & C & _ & R);
      rewrite C, R, !publish_to_mqtt_res; split; reflexivity
    end.
Qed.

End Controller.

(** * Concrete runs *)

Example update_rtc_sets_the_clock :
  events (update_rtc circuitpython (with_http (inr saturday_afternoon) quiet) World_init)
  = [ EvHttpGet;
      EvRtcSet {| tm_year := 2022; tm_mon := 3; tm_mday := 5;
                  tm_hour := 14; tm_min := 7; tm_sec := 5;
                  tm_wday := 5; tm_yday := -1; tm_isdst := false |} ].
Proof. reflexivity. Qed.

Example update_rtc_fetch_fails :
  update_rtc circuitpython quiet World_init = mkOut (Exc OSError) World_init [EvHttpGet].
Proof. reflexivity. Qed.

Example sensor_timeout_ends_the_monitor :
  get_door_state_iter config circuitpython (with_distance TimedOut quiet) World_init
  = mkOut (Exc RuntimeError) World_init [].
Proof. reflexivity. Qed.

Example first_motion_turn :
  motion (garage_state (final
    (get_motion_state_iter config circuitpython quiet World_init)))
  = Some false.
Proof. reflexivity. Qed.

Example close_succeeds_in_time :
  in_close_window config 22 = true
  /\ events (check_open_time config (with_hour 22 quiet) door_open_no_motion)
     = [EvCreateTask activate_opener_co]
  /\ events (check_open_time config (with_hour 12 quiet) door_open_no_motion) = [].
Proof. repeat split; reflexivity. Qed.

(** The float nearest to one tenth, plus 300, is the float nearest to
    300.1 under CPython, which is not their sum. *)
Example float_sum_is_rounded :
  float_add cpython (3602879701896397 # 36028797018963968) 300
  = (2639707515964621 # 8796093022208)%Q
  /\ ~ ((3602879701896397 # 36028797018963968) + 300
        == 2639707515964621 # 8796093022208)%Q.
Proof.
  split; [vm_compute; reflexivity|].
  unfold Qeq. cbn. lia.
Qed.

Example int_reads_a_number :
  int_of_str cpython " +1_0 " = Some 10
  /\ int_of_str cpython "-7" = Some (-7)
  /\ int_of_str cpython "05" = Some 5
  /\ int_of_str cpython "-" = None
  /\ int_of_str cpython "" = None
  /\ int_of_str cpython "1__0" = None
  /\ int_of_str cpython "1 0" = None.
Proof. repeat split; reflexivity. Qed.

(** * The claims *)

(** C1.  An evaluation of [check_open_time] creates the [activate_opener]
    task exactly when the hour is in the close window (at or after
    GARAGE_CLOSE_AFTER, or at or before GARAGE_CLOSE_BEFORE), the door
    status is "Open", [door_error] is [False] and [motion] is [False]
    itself, not [True] and not [None]; it never creates more than one.
    With the values of [config.py], 21 and 3 are in the window and 12 is
    not. *)
Theorem auto_close_initiated_iff (cfg : Config) (i : Inputs) (w : World) :
  (count_ev is_create_task (events (check_open_time cfg i w)) = 1%nat
   <-> ((GARAGE_CLOSE_AFTER cfg <= rtc_hour i)%Z
        \/ (rtc_hour i <= GARAGE_CLOSE_BEFORE cfg)%Z)
       /\ door_status (garage_state w) = PyStr "Open"
       /\ door_error (garage_state w) = false
       /\ motion (garage_state w) = Some false)
  /\ (count_ev is_create_task (events (check_open_time cfg i w)) <= 1)%nat
  /\ in_close_window config 21 = true
  /\ in_close_window config 3 = true
  /\ in_close_window config 12 = false.
Proof.
  destruct (check_open_time_closes_iff cfg i w) as [A B].
  split; [exact A | split; [exact B | repeat split; reflexivity]].
Qed.

(** C2 (the code departs from it).  The door is open, nobody is around,
    it is 22 h: the policy starts the opener and sleeps.  When it wakes
    (the door still at 50 from the sensor, the position monitor still
    paused) it reads no distance: [door_status] becomes the coroutine
    object of [get_door_state()], [door_error] stays [False], and what is
    published is not the snapshot of the garage state; under CPython the
    segment ends with [TypeError] and publishes nothing. *)
Theorem failed_close_is_not_flagged :
  (door_status (garage_state (sys_world
      (exec config circuitpython (firstn 7 failed_close) boot))) = PyStr "Open"
   /\ pause_door_check (garage_state (sys_world
      (exec config circuitpython (firstn 7 failed_close) boot))) = true
   /\ nth_error (pool (exec config circuitpython (firstn 7 failed_close) boot)) 5
      = Some PolicyAfterSleep)
  /\ door_status (garage_state (sys_world (exec config circuitpython failed_close boot)))
     = PyCoroutine "get_door_state"
  /\ door_error (garage_state (sys_world (exec config circuitpython failed_close boot)))
     = false
  /\ count_ev is_snapshot
       (events (check_open_time_after_sleep circuitpython still_open
                  (sys_world (exec config circuitpython (firstn 7 failed_close) boot))))
     = 0%nat
  /\ door_error (garage_state (sys_world (exec config cpython failed_close boot))) = false
  /\ raised (exec config cpython failed_close boot) = [(PolicyAfterSleep, TypeError)].
Proof.
  vm_compute. repeat split; reflexivity.
Qed.

(** C3 (the code departs from it).  With [door_error] set, the door open
    and the hour in the window, an evaluation long after any failure reads
    the local variable [door_error_time], to which nothing was assigned in
    this call: it ends with [NameError] and [door_error] stays set. *)
Theorem error_backoff_is_never_cleared :
  res (check_open_time config (with_now 100000%Q (with_hour 22 quiet)) door_open_flagged)
  = Exc NameError
  /\ door_error (garage_state (final
       (check_open_time config (with_now 100000%Q (with_hour 22 quiet)) door_open_flagged)))
     = true
  /\ events (check_open_time config (with_now 100000%Q (with_hour 22 quiet))
               door_open_flagged) = [].
Proof.
  repeat split; reflexivity.
Qed.

(** C4, as it is stated, fails: the request delivered twice in one
    [mqtt_client.loop()] creates two [activate_opener] tasks. *)
Lemma redelivered_request_fires_twice :
  count_ev is_create_task
    (events (mqtt_client_loop_iter circuitpython
               (with_inbound [request circuitpython; request circuitpython] quiet)
               World_init)) = 2%nat
  /\ created
       (events (mqtt_client_loop_iter circuitpython
                  (with_inbound [request circuitpython; request circuitpython] quiet)
                  World_init)) = [OpenerStart; OpenerStart]
  /\ ~ (count_ev is_create_task
         (events (mqtt_client_loop_iter circuitpython
                    (with_inbound [request circuitpython; request circuitpython] quiet)
                    World_init)) <= 1)%nat.
Proof.
  repeat split. vm_compute. intro H. lia.
Qed.

(** C4 (as amended).  A delivery of the payload "True" on the door-request
    topic enters [publish_to_mqtt] once with "False" for that topic; the
    "False" is published once unless the error path restarts the device,
    and one [activate_opener] task is created when the publish returns,
    none otherwise.  The payloads "False" and "true" do nothing.  Nothing
    is remembered between deliveries: [n] deliveries of the request over a
    healthy link publish [n] acknowledgments and create [n] tasks. *)
Theorem door_request_fires_per_delivery
  (platform : Platform) (lk : Link) (n : nat) (w : World) :
  let o := message platform lk (MQTT_DOOR_REQUEST platform) "True" w in
  let many := deliver platform (repeat (request platform) n) w in
  count_ev (is_publish_to_mqtt (MQTT_DOOR_REQUEST platform)) (events o) = 1%nat
  /\ count_ev (is_ack platform) (events o)
     = (if error_path_restarts lk then 0 else 1)%nat
  /\ count_ev is_create_task (events o)
     = (match res o with Ret _ => 1 | _ => 0 end)%nat
  /\ events (message platform lk (MQTT_DOOR_REQUEST platform) "False" w) = []
  /\ events (message platform lk (MQTT_DOOR_REQUEST platform) "true" w) = []
  /\ count_ev (is_ack platform) (events many) = n
  /\ count_ev is_create_task (events many) = n.
Proof.
  destruct (message_request platform lk w) as (A & B & C).
  destruct (deliver_requests platform n w) as (_ & D & E).
  repeat split; try assumption.
  - unfold message. rewrite String.eqb_refl. reflexivity.
  - unfold message. rewrite String.eqb_refl. reflexivity.
Qed.

(** C5, as it is stated, fails: the first reading of a door at 50 turns
    the status from [None] into "Open", but with the transport down
    [publish_to_mqtt] restarts the device before it comes to
    [mqtt_client.publish]: the classification changed and nothing was
    published. *)
Lemma door_change_goes_unpublished :
  door_status (garage_state World_init)
  <> door_status (garage_state (final
       (get_door_state_iter config circuitpython (with_link link_down still_open)
          World_init)))
  /\ filter is_publish_call
       (events (get_door_state_iter config circuitpython
                  (with_link link_down still_open) World_init)) = []
  /\ res (get_door_state_iter config circuitpython (with_link link_down still_open)
            World_init) = Halt
  /\ ~ (count_ev is_publish_call
          (events (get_door_state_iter config circuitpython
                     (with_link link_down still_open) World_init)) = 1%nat
        <-> door_status (garage_state World_init)
            <> door_status (garage_state (final
                 (get_door_state_iter config circuitpython
                    (with_link link_down still_open) World_init)))).
Proof.
  split; [discriminate|]. split; [reflexivity|]. split; [reflexivity|].
  intros [_ H].
  assert (C : count_ev is_publish_call
                (events (get_door_state_iter config circuitpython
                           (with_link link_down still_open) World_init)) = 0%nat)
    by reflexivity.
  rewrite C in H. discriminate H. discriminate.
Qed.

(** C5 (as amended).  A turn of [get_door_state] that is not paused and
    gets the distance [d] sets [door_status] to "Open" when [d] is below
    DOOR_DISTANCE and to "Closed" when it is not; it enters
    [publish_to_mqtt] for the garage-state topic once when the new status
    differs from the one before and not at all when it does not, and what
    it hands over is the snapshot with the new status.  The snapshot
    reaches [mqtt_client.publish], once, exactly when the status changed
    and the error path of the link did not restart the device; when it
    did, the turn ends in the restart with the change unpublished.
    DOOR_DISTANCE is 90 in [config.py]. *)
Theorem door_monitor_classifies_and_publishes_on_change
  (cfg : Config) (platform : Platform) (i : Inputs) (w : World) (d : Q) :
  pause_door_check (garage_state w) = false ->
  distance i = Measured d ->
  let o := get_door_state_iter cfg platform i w in
  let new := door_status (garage_state (final o)) in
  let snap := PSnapshot new (door_error (garage_state w)) (motion (garage_state w)) in
  ((d < inject_Z (DOOR_DISTANCE cfg))%Q -> new = PyStr "Open")
  /\ ((inject_Z (DOOR_DISTANCE cfg) <= d)%Q -> new = PyStr "Closed")
  /\ (count_ev (is_publish_to_mqtt (MQTT_GARAGE_STATE platform)) (events o) = 1%nat
      <-> door_status (garage_state w) <> new)
  /\ (count_ev (is_publish_to_mqtt (MQTT_GARAGE_STATE platform)) (events o) = 0%nat
      <-> door_status (garage_state w) = new)
  /\ (door_status (garage_state w) <> new ->
      exists rest,
        events o = EvPublishToMqtt (MQTT_GARAGE_STATE platform) snap :: rest)
  /\ (filter is_publish_call (events o)
      = [EvClient (Publish (MQTT_GARAGE_STATE platform) snap) (final_r (link i))]
      <-> door_status (garage_state w) <> new
          /\ error_path_restarts (link i) = false)
  /\ (filter is_publish_call (events o) = []
      <-> door_status (garage_state w) = new
          \/ error_path_restarts (link i) = true)
  /\ (door_status (garage_state w) <> new ->
      error_path_restarts (link i) = true -> res o = Halt)
  /\ (door_status (garage_state w) = new -> res o = Ret (Sleep 0%Q DoorLoop))
  /\ DOOR_DISTANCE config = 90%Z.
Proof.
  intros Hp Hd o new snap.
  destruct (get_door_state_unpaused cfg platform i w d Hp Hd) as (S & C & E).
  destruct (get_door_state_unpaused_calls cfg platform i w d Hp Hd) as (F & R).
  fold o in S, C, E, F, R. cbv zeta in F, R.
  assert (N : new = classify cfg d) by exact S.
  unfold snap. rewrite N in *. clear S.
  assert (X : exists s, classify cfg d = PyStr s) by apply classify_str.
  destruct X as [s X].
  assert (Y : py_eq (door_status (garage_state w)) (classify cfg d) = true
              <-> door_status (garage_state w) = classify cfg d).
  { rewrite X. apply py_eq_str_iff. }
  rewrite publish_to_mqtt_res in R.
  destruct (py_eq (door_status (garage_state w)) (classify cfg d)) eqn:P.
  - assert (Q : door_status (garage_state w) = classify cfg d) by (apply Y; reflexivity).
    refine (conj _ (conj _ (conj _ (conj _ (conj _ (conj _ (conj _ (conj _ (conj _ _))))))))).
    + intro L. apply Qltb_lt in L. unfold classify. rewrite L. reflexivity.
    + intro L. apply Qltb_ge in L. unfold classify. rewrite L. reflexivity.
    + rewrite C. split; [discriminate | intro H; exfalso; exact (H Q)].
    + rewrite C. split; [intros _; exact Q | reflexivity].
    + intro H. exfalso. exact (H Q).
    + rewrite F. split; [discriminate | intros [H _]; exfalso; exact (H Q)].
    + rewrite F. split; [intros _; left; exact Q | reflexivity].
    + intro H. exfalso. exact (H Q).
    + intros _. exact R.
    + reflexivity.
  - assert (Q : door_status (garage_state w) <> classify cfg d).
    { intro H. apply Y in H. discriminate H. }
    refine (conj _ (conj _ (conj _ (conj _ (conj _ (conj _ (conj _ (conj _ (conj _ _))))))))).
    + intro L. apply Qltb_lt in L. unfold classify. rewrite L. reflexivity.
    + intro L. apply Qltb_ge in L. unfold classify. rewrite L. reflexivity.
    + rewrite C. split; [intros _; exact Q | reflexivity].
    + rewrite C. split; [discriminate | intro H; exfalso; exact (Q H)].
    + intros _. apply E. reflexivity.
    + rewrite F. destruct (error_path_restarts (link i)).
      * split; [discriminate | intros [_ H]; discriminate H].
      * split; [intros _; split; [exact Q | reflexivity] | reflexivity].
    + rewrite F. destruct (error_path_restarts (link i)).
      * split; [intros _; right; reflexivity | reflexivity].
      * split; [discriminate | intros [H | H]; [exfalso; exact (Q H) | discriminate H]].
    + intros _ H. rewrite R, H. reflexivity.
    + intro H. exfalso. exact (Q H).
    + reflexivity.
Qed.

Lemma door_monitor_classifies_witness :
  pause_door_check (garage_state World_init) = false
  /\ distance still_open = Measured 50%Q
  /\ door_status (garage_state
       (final (get_door_state_iter config circuitpython still_open World_init)))
     = PyStr "Open"
  /\ filter is_publish_call
       (events (get_door_state_iter config circuitpython still_open World_init))
     = [EvClient (Publish (MQTT_GARAGE_STATE circuitpython)
                    (PSnapshot (PyStr "Open") false None)) None].
Proof.
  split; [reflexivity|]. split; [reflexivity|].
  pose proof (door_monitor_classifies_and_publishes_on_change config circuitpython
                still_open World_init 50%Q eq_refl eq_refl) as H.
  cbv zeta in H. destruct H as (A & _ & _ & _ & _ & B & _).
  split; [apply A; reflexivity|].
  apply B. split; [discriminate | reflexivity].
Defined.

(** C6.  While [pause_door_check] is set, a turn of [get_door_state] leaves
    the shared objects as they are, [door_status] included, and logs
    nothing, whatever the distance sensor would answer. *)
Theorem door_monitor_paused_does_nothing
  (cfg : Config) (platform : Platform) (i : Inputs) (w : World) :
  pause_door_check (garage_state w) = true ->
  final (get_door_state_iter cfg platform i w) = w
  /\ events (get_door_state_iter cfg platform i w) = []
  /\ res (get_door_state_iter cfg platform i w) = Ret (Sleep 0%Q DoorLoop).
Proof.
  intro H. rewrite (get_door_state_paused cfg platform i w H). repeat split.
Qed.

Lemma door_monitor_paused_witness :
  pause_door_check (garage_state (final (activate_opener_start door_open_no_motion)))
  = true
  /\ final (get_door_state_iter config circuitpython still_open
              (final (activate_opener_start door_open_no_motion)))
     = final (activate_opener_start door_open_no_motion)
  /\ events (get_door_state_iter config circuitpython (with_distance TimedOut quiet)
               (final (activate_opener_start door_open_no_motion))) = [].
Proof.
  split; [reflexivity|]. split.
  - apply (door_monitor_paused_does_nothing config circuitpython still_open
             (final (activate_opener_start door_open_no_motion)) eq_refl).
  - apply (door_monitor_paused_does_nothing config circuitpython
             (with_distance TimedOut quiet)
             (final (activate_opener_start door_open_no_motion)) eq_refl).
Defined.

(** C7.  One call of [activate_opener], with any segments of the other
    tasks run during its two sleeps: it sets [pause_door_check] and the
    relay and sleeps 2 seconds; the flag and the relay are still set when
    it goes on; it clears the relay and sleeps DOOR_CLOSE_DELAY seconds (12
    in [config.py]); the flag is still set and the relay still clear when
    it goes on; it clears the flag and returns.  The last segment clears
    the flag from any state, and no segment of another task changes it. *)
Theorem activate_opener_pause_cycle
  (cfg : Config) (platform : Platform) (w0 : World)
  (during_pulse during_settle : list (TaskPc * Inputs)) :
  forallb (fun x => negb (is_opener (fst x))) during_pulse = true ->
  forallb (fun x => negb (is_opener (fst x))) during_settle = true ->
  let o1 := activate_opener_start w0 in
  let w1 := run_segments cfg platform during_pulse (final o1) in
  let o2 := activate_opener_pulse cfg w1 in
  let w2 := run_segments cfg platform during_settle (final o2) in
  let o3 := activate_opener_settle w2 in
  (res o1 = Ret (Sleep 2%Q OpenerPulse)
   /\ pause_door_check (garage_state (final o1)) = true
   /\ relay_value (final o1) = true)
  /\ (pause_door_check (garage_state w1) = true /\ relay_value w1 = true)
  /\ (res o2 = Ret (Sleep (inject_Z (DOOR_CLOSE_DELAY cfg)) OpenerSettle)
      /\ pause_door_check (garage_state (final o2)) = true
      /\ relay_value (final o2) = false)
  /\ (pause_door_check (garage_state w2) = true /\ relay_value w2 = false)
  /\ (res o3 = Ret Finished
      /\ pause_door_check (garage_state (final o3)) = false
      /\ relay_value (final o3) = false)
  /\ DOOR_CLOSE_DELAY config = 12%Z
  /\ (forall w, pause_door_check (garage_state (final (activate_opener_settle w))) = false)
  /\ (forall pc i w, is_opener pc = false ->
        pause_door_check (garage_state (final (resume cfg platform pc i w)))
        = pause_door_check (garage_state w)).
Proof.
  intros H1 H2 o1 w1 o2 w2 o3.
  destruct (run_segments_keeps cfg platform during_pulse (final o1) H1) as [P1 R1].
  destruct (run_segments_keeps cfg platform during_settle (final o2) H2) as [P2 R2].
  fold w1 in P1, R1. fold w2 in P2, R2.
  assert (A1 : pause_door_check (garage_state w1) = true) by (rewrite P1; reflexivity).
  assert (B1 : relay_value w1 = true) by (rewrite R1; reflexivity).
  assert (A2 : pause_door_check (garage_state (final o2)) = true) by exact A1.
  assert (A3 : pause_door_check (garage_state w2) = true) by (rewrite P2; exact A2).
  assert (B3 : relay_value w2 = false) by (rewrite R2; reflexivity).
  repeat split; try assumption; try reflexivity.
  intros pc i w H. apply resume_keeps_pause. exact H.
Qed.

Lemma activate_opener_pause_cycle_witness :
  forallb (fun x => negb (is_opener (fst x))) meanwhile = true
  /\ pause_door_check (garage_state
       (final (activate_opener_settle
          (run_segments config circuitpython meanwhile
             (final (activate_opener_pulse config
                (run_segments config circuitpython meanwhile
                   (final (activate_opener_start door_open_no_motion))))))))) = false.
Proof.
  split; [reflexivity|].
  apply (activate_opener_pause_cycle config circuitpython door_open_no_motion
           meanwhile meanwhile eq_refl eq_refl).
Defined.

(** C8, as it is stated, fails: when [is_connected] raises [OSError] the
    device is restarted at once and neither [mqtt_client.publish] nor
    [mqtt_client.loop] is called. *)
Lemma transport_failure_skips_the_attempt :
  events (publish_to_mqtt link_down "home/garage/garage-state" (PText "x") World_init)
  = [ EvPublishToMqtt "home/garage/garage-state" (PText "x");
      EvClient IsConnected (Some OSError); EvReset ]
  /\ res (publish_to_mqtt link_down "home/garage/garage-state" (PText "x") World_init)
     = Halt
  /\ count_ev is_publish_call
       (events (publish_to_mqtt link_down "home/garage/garage-state" (PText "x")
                  World_init)) = 0%nat
  /\ events (mqtt_client_loop_iter circuitpython (with_link link_down quiet) World_init)
     = [ EvClient IsConnected (Some OSError); EvReset ]
  /\ count_ev is_loop_call
       (events (mqtt_client_loop_iter circuitpython (with_link link_down quiet)
                  World_init)) = 0%nat
  /\ ~ (forall lk topic msg w,
          count_ev is_publish_call (events (publish_to_mqtt lk topic msg w)) = 1%nat).
Proof.
  repeat split.
  intro H.
  specialize (H link_down "t"%string (PText "x") World_init).
  discriminate H.
Qed.

(** C8 (as amended).  For every call of [publish_to_mqtt] and every turn of
    [mqtt_client_loop], with any answers of the client: a reconnect is
    tried exactly once when [is_connected] fails at the protocol level
    and not at all otherwise; the device is restarted when that reconnect
    fails or when [is_connected] fails at the transport level, and then
    nothing more is called; when the error path did not restart the
    device, exactly one [publish] (one [loop]) call follows, and a
    protocol or transport failure of that call restarts the device (for
    [loop], unless a callback let another exception out of it first); the
    device is restarted at most once. *)
Theorem link_recovery_policy
  (platform : Platform) (lk : Link) (topic : string) (msg : Payload)
  (i : Inputs) (w : World) :
  let p := publish_to_mqtt lk topic msg w in
  let t := mqtt_client_loop_iter platform i w in
  (count_ev is_reconnect (events p)
     = (if is_protocol (is_connected_r lk) then 1 else 0)%nat
   /\ count_ev is_publish_call (events p)
     = (if error_path_restarts lk then 0 else 1)%nat
   /\ is_halt (res p) = error_path_restarts lk || link_failed (final_r lk)
   /\ count_ev is_reset (events p) = (if is_halt (res p) then 1 else 0)%nat)
  /\
  (count_ev is_reconnect (before is_loop_call (events t))
     = (if is_protocol (is_connected_r (link i)) then 1 else 0)%nat
   /\ count_ev is_loop_call (events t)
     = (if error_path_restarts (link i) then 0 else 1)%nat
   /\ implb (error_path_restarts (link i)
             || (link_failed (final_r (link i))
                 && negb (callback_raises platform (inbound i) w)))
            (is_halt (res t)) = true
   /\ count_ev is_reset (events t) = (if is_halt (res t) then 1 else 0)%nat).
Proof.
  intros p t. split.
  - destruct (publish_to_mqtt_counts lk topic msg w) as (R & P & X & _).
    repeat split; try assumption.
    subst p. rewrite publish_to_mqtt_res.
    destruct lk as [[[]|] [[]|] [[]|]]; reflexivity.
  - apply mqtt_client_loop_iter_counts.
Qed.

Lemma link_recovery_policy_witness :
  count_ev is_reconnect
    (events (publish_to_mqtt link_reconnects "home/garage/system" (PText "x") World_init))
  = 1%nat
  /\ count_ev is_publish_call
       (events (publish_to_mqtt link_reconnects "home/garage/system" (PText "x")
                  World_init)) = 1%nat.
Proof.
  pose proof (link_recovery_policy circuitpython link_reconnects
                "home/garage/system" (PText "x") quiet World_init) as H.
  cbv zeta in H. destruct H as [(R & P & _) _]. split; [exact R | exact P].
Defined.



(** C10.  In every run: when [get_motion_state] gets its first turn, with
    a clock reading above 0, a presence sensor that reads inactive makes
    [motion] [False], because [motion_timeout] is still the 0 it was
    created with; and whatever the sensor reads, [motion] is not [None]
    after that turn nor at any later moment of the run. *)
Theorem motion_known_after_first_iteration
  (cfg : Config) (platform : Platform)
  (before_it after_it : list (nat * Inputs)) (n : nat) (i : Inputs) :
  status (exec cfg platform before_it boot) = Running ->
  nth_error (pool (exec cfg platform before_it boot)) n = Some MotionLoop ->
  count_pc MotionLoop (resumed (exec cfg platform before_it boot)) = 0%nat ->
  (0 < now i)%Q ->
  let s1 := exec cfg platform before_it boot in
  let s2 := sys_resume cfg platform n i s1 in
  (motion (garage_state (sys_world s1)) = None
   /\ motion_timeout (garage_state (sys_world s1)) = 0%Q)
  /\ (pir_value i = false -> motion (garage_state (sys_world s2)) = Some false)
  /\ motion (garage_state (sys_world s2)) <> None
  /\ motion (garage_state (sys_world (exec cfg platform after_it s2))) <> None.
Proof.
  intros Hs Hn Hc Hnow s1 s2.
  destruct (exec_keeps_motion cfg platform before_it boot) as [M T].
  { rewrite Hc. reflexivity. }
  fold s1 in M, T, Hs, Hn. cbn in M, T.
  destruct (sys_resume_fields cfg platform n i s1 MotionLoop Hs Hn) as (W & _).
  cbv zeta in W. fold s2 in W.
  pose proof (get_motion_state_first cfg platform i (sys_world s1) T Hnow) as F.
  change (get_motion_state_iter cfg platform i) with (resume cfg platform MotionLoop i) in F.
  rewrite <- W in F.
  assert (K : motion (garage_state (sys_world s2)) <> None).
  { rewrite F. destruct (pir_value i); [|discriminate].
    destruct (Qltb _ _); discriminate. }
  split; [split; assumption|]. split; [|split; [exact K|]].
  - intro P. rewrite F, P. reflexivity.
  - apply (exec_motion_known cfg platform after_it s2). exact K.
Qed.

Lemma motion_known_after_first_iteration_witness :
  status (exec config circuitpython before_motion boot) = Running
  /\ nth_error (pool (exec config circuitpython before_motion boot)) 0 = Some MotionLoop
  /\ count_pc MotionLoop (resumed (exec config circuitpython before_motion boot)) = 0%nat
  /\ (0 < now quiet)%Q
  /\ motion (garage_state (sys_world
        (sys_resume config circuitpython 0 quiet
           (exec config circuitpython before_motion boot)))) = Some false
  /\ motion (garage_state (sys_world
        (exec config circuitpython after_motion
           (sys_resume config circuitpython 0 quiet
              (exec config circuitpython before_motion boot))))) <> None.
Proof.
  split; [reflexivity|]. split; [reflexivity|]. split; [reflexivity|].
  split; [reflexivity|].
  pose proof (motion_known_after_first_iteration config circuitpython
                before_motion after_motion 0%nat quiet
                eq_refl eq_refl eq_refl eq_refl) as H.
  cbv zeta in H. destruct H as (_ & A & _ & B).
  split; [apply A; reflexivity | exact B].
Defined.

(** * Further properties of the code *)

(** X1.  [publish_to_mqtt] never changes [garage_state] or the relay, and
    whatever the client raises, neither [OSError] nor [MMQTTException]
    comes out of it: it returns, restarts the device, or lets another
    exception through. *)
Theorem publish_to_mqtt_contains_link_errors
  (lk : Link) (topic : string) (msg : Payload) (w : World) :
  final (publish_to_mqtt lk topic msg w) = w
  /\ res (publish_to_mqtt lk topic msg w) <> Exc OSError
  /\ res (publish_to_mqtt lk topic msg w) <> Exc MMQTTException.
Proof.
  split; [apply publish_to_mqtt_final|].
  rewrite publish_to_mqtt_res.
  destruct lk as [[[]|] [[]|] [[]|]]; split; discriminate.
Qed.

(** X2.  The only [mqtt_client.publish] call of [publish_to_mqtt] carries
    the topic and the message it was given, and is made unless the error
    path restarted the device; [publish_to_mqtt] returns exactly when that
    call returned after a connection check that passed or a reconnect that
    succeeded. *)
Theorem publish_to_mqtt_hands_over_the_message
  (lk : Link) (topic : string) (msg : Payload) (w : World) :
  filter is_publish_call (events (publish_to_mqtt lk topic msg w))
  = (if error_path_restarts lk then []
     else [EvClient (Publish topic msg) (final_r lk)])
  /\ (res (publish_to_mqtt lk topic msg w) = Ret tt
      <-> final_r lk = None
          /\ (is_connected_r lk = None
              \/ (is_connected_r lk = Some MMQTTException /\ reconnect_r lk = None))).
Proof.
  split; [apply publish_to_mqtt_calls|].
  rewrite publish_to_mqtt_res.
  destruct lk as [[[]|] [[]|] [[]|]]; cbn;
    (split; [intro H; try discriminate H; auto
            | intros (A & [B | (B & C)]); try discriminate; reflexivity]).
Qed.

(** X3.  A turn of [get_sensor_data] enters [publish_to_mqtt] exactly
    once, for its own topic and with its own sample, leaves [garage_state]
    and the relay as they are, and when the publish returns sleeps 60
    seconds to loop.  A turn of [get_system_data] and of
    [mqtt_publish_loop] does the same (the sample of [mqtt_publish_loop]
    is the snapshot of [garage_state] as it is at that moment), provided
    [json.dumps] can write the sample: it always can when the radio has no
    address, respectively when [door_status] is not a coroutine object,
    and on a platform that prints such objects.  On a platform where
    [json.dumps] raises on them, the turn ends with [TypeError] before
    [publish_to_mqtt] is entered: [get_system_data] whenever the radio has
    an address, [mqtt_publish_loop] once [check_open_time] has left the
    coroutine object in [door_status]. *)
Theorem periodic_publishers_publish_once
  (platform : Platform) (i : Inputs) (w : World) :
  let env := PEnvironment (aht20_temperature i) (aht20_relative_humidity i) (bh1750_lux i) in
  let sys := PSystem (cpu_reset_reason i) (now i) (ipv4_address i) (board_board_id i) in
  let snap := PSnapshot (door_status (garage_state w)) (door_error (garage_state w))
                (motion (garage_state w)) in
  (final (get_sensor_data_iter platform i w) = w
   /\ filter is_publish_entry (events (get_sensor_data_iter platform i w))
      = [EvPublishToMqtt (MQTT_ENVIRONMENT platform) env]
   /\ res (get_sensor_data_iter platform i w)
      = match res (publish_to_mqtt (link i) (MQTT_ENVIRONMENT platform) env w) with
        | Ret _ => Ret (Sleep 60%Q SensorLoop) | Exc e => Exc e | Halt => Halt
        end)
  /\ (ipv4_address i = None \/ json_prints_address platform = true ->
      final (get_system_data_iter platform i w) = w
      /\ filter is_publish_entry (events (get_system_data_iter platform i w))
         = [EvPublishToMqtt (MQTT_SYSTEM platform) sys]
      /\ res (get_system_data_iter platform i w)
         = match res (publish_to_mqtt (link i) (MQTT_SYSTEM platform) sys w) with
           | Ret _ => Ret (Sleep 60%Q SystemLoop) | Exc e => Exc e | Halt => Halt
           end)
  /\ (ipv4_address i <> None -> json_prints_address platform = false ->
      get_system_data_iter platform i w = mkOut (Exc TypeError) w [])
  /\ ((forall fn, door_status (garage_state w) <> PyCoroutine fn)
      \/ json_prints_coroutine platform = true ->
      final (mqtt_publish_loop_iter platform i w) = w
      /\ filter is_publish_entry (events (mqtt_publish_loop_iter platform i w))
         = [EvPublishToMqtt (MQTT_GARAGE_STATE platform) snap]
      /\ res (mqtt_publish_loop_iter platform i w)
         = match res (publish_to_mqtt (link i) (MQTT_GARAGE_STATE platform) snap w) with
           | Ret _ => Ret (Sleep 60%Q PublishLoop) | Exc e => Exc e | Halt => Halt
           end)
  /\ (forall fn, door_status (garage_state w) = PyCoroutine fn ->
      json_prints_coroutine platform = false ->
      mqtt_publish_loop_iter platform i w = mkOut (Exc TypeError) w []).
Proof.
  intros env sys snap.
  split; [|split; [|split; [|split]]].
  - unfold get_sensor_data_iter.
    destruct (publish_then_sleep (link i) (MQTT_ENVIRONMENT platform) env
                (Sleep 60%Q SensorLoop) w) as (A & B & _ & _ & C).
    repeat split; assumption.
  - intro H. rewrite (get_system_data_iter_ret platform i w H).
    destruct (publish_then_sleep (link i) (MQTT_SYSTEM platform) sys
                (Sleep 60%Q SystemLoop) w) as (A & B & _ & _ & C).
    repeat split; assumption.
  - apply get_system_data_iter_raise.
  - intro H.
    rewrite (mqtt_publish_loop_iter_ret platform i w snap (json_ret platform _ H)).
    destruct (publish_then_sleep (link i) (MQTT_GARAGE_STATE platform) snap
                (Sleep 60%Q PublishLoop) w) as (A & B & _ & _ & C).
    repeat split; assumption.
  - intros fn H1 H2. apply mqtt_publish_loop_iter_raise.
    apply (json_raise platform _ fn H1 H2).
Qed.

Lemma periodic_publishers_publish_once_witness :
  (ipv4_address quiet = None \/ json_prints_address circuitpython = true)
  /\ filter is_publish_entry (events (get_system_data_iter circuitpython quiet World_init))
     = [EvPublishToMqtt (MQTT_SYSTEM circuitpython)
          (PSystem (cpu_reset_reason quiet) (now quiet) (ipv4_address quiet)
                   (board_board_id quiet))]
  /\ ipv4_address quiet <> None
  /\ json_prints_address cpython = false
  /\ get_system_data_iter cpython quiet World_init
     = mkOut (Exc TypeError) World_init []
  /\ json_prints_coroutine circuitpython = true
  /\ filter is_publish_entry
       (events (mqtt_publish_loop_iter circuitpython quiet after_failed_close))
     = [EvPublishToMqtt (MQTT_GARAGE_STATE circuitpython)
          (PSnapshot (PyCoroutine "get_door_state") false (Some false))]
  /\ door_status (garage_state after_failed_close) = PyCoroutine "get_door_state"
  /\ json_prints_coroutine cpython = false
  /\ mqtt_publish_loop_iter cpython quiet after_failed_close
     = mkOut (Exc TypeError) after_failed_close [].
Proof.
  assert (A : ipv4_address quiet = None \/ json_prints_address circuitpython = true)
    by (right; reflexivity).
  assert (B : ipv4_address quiet <> None) by discriminate.
  assert (C : json_prints_coroutine circuitpython = true) by reflexivity.
  pose proof (periodic_publishers_publish_once circuitpython quiet World_init) as H1.
  pose proof (periodic_publishers_publish_once cpython quiet World_init) as H2.
  pose proof (periodic_publishers_publish_once circuitpython quiet after_failed_close)
    as H3.
  pose proof (periodic_publishers_publish_once cpython quiet after_failed_close) as H4.
  cbv zeta in H1, H2, H3, H4.
  destruct H1 as (_ & H1 & _), H2 as (_ & _ & H2 & _),
    H3 as (_ & _ & _ & H3 & _), H4 as (_ & _ & _ & _ & H4).
  split; [exact A|].
  split; [apply (H1 A)|].
  split; [exact B|]. split; [reflexivity|].
  split; [exact (H2 B eq_refl)|].
  split; [exact C|].
  split; [apply (H3 (or_intror C))|].
  split; [reflexivity|]. split; [reflexivity|].
  exact (H4 "get_door_state"%string eq_refl eq_refl).
Defined.

(** X4.  A turn of [get_motion_state] cannot fail: whatever the sensor and
    the clock answer it raises nothing (the [except KeyError] is never
    used), restarts nothing, publishes nothing, and ends at its
    [sleep(0)]; of the shared objects it writes only [motion] and
    [motion_timeout]. *)
Theorem motion_monitor_turn_cannot_fail
  (cfg : Config) (platform : Platform) (i : Inputs) (w : World) :
  res (get_motion_state_iter cfg platform i w) = Ret (Sleep 0%Q MotionLoop)
  /\ events (get_motion_state_iter cfg platform i w) = []
  /\ door_status (garage_state (final (get_motion_state_iter cfg platform i w)))
     = door_status (garage_state w)
  /\ door_error (garage_state (final (get_motion_state_iter cfg platform i w)))
     = door_error (garage_state w)
  /\ pause_door_check (garage_state (final (get_motion_state_iter cfg platform i w)))
     = pause_door_check (garage_state w)
  /\ relay_value (final (get_motion_state_iter cfg platform i w)) = relay_value w.
Proof.
  pose proof (get_motion_state_eq cfg platform i w) as E. cbv zeta in E.
  rewrite E. repeat split.
Qed.

(** X5.  When the presence sensor is active, the turn moves the deadline
    to the sum of the reading taken at the trigger and MOTION_TIMEOUT (300
    in [config.py]), a sum of floats, rounded as the Python running the
    program rounds it, whatever the deadline was; it leaves [motion] [True]
    when the second reading of the clock is not past that deadline, and
    [False] when it is. *)
Theorem active_sensor_rearms_the_deadline
  (cfg : Config) (platform : Platform) (i : Inputs) (w : World) :
  pir_value i = true ->
  let deadline := float_add platform (now_trigger i) (inject_Z (MOTION_TIMEOUT cfg)) in
  motion_timeout (garage_state (final (get_motion_state_iter cfg platform i w)))
  = deadline
  /\ ((now i <= deadline)%Q ->
      motion (garage_state (final (get_motion_state_iter cfg platform i w)))
      = Some true)
  /\ ((deadline < now i)%Q ->
      motion (garage_state (final (get_motion_state_iter cfg platform i w)))
      = Some false)
  /\ MOTION_TIMEOUT config = 300%Z.
Proof.
  intros P deadline. pose proof (get_motion_state_eq cfg platform i w) as E.
  cbv zeta in E. rewrite E, P. cbn [final garage_state motion motion_timeout].
  fold deadline.
  split; [reflexivity|]. split; [|split; [|reflexivity]].
  - intro L. apply Qltb_ge in L. rewrite L. reflexivity.
  - intro L. apply Qltb_lt in L. rewrite L. reflexivity.
Qed.

Lemma active_sensor_rearms_the_deadline_witness :
  pir_value (with_pir true quiet) = true
  /\ motion_timeout (garage_state (final
       (get_motion_state_iter config circuitpython (with_pir true quiet) somebody_seen)))
     = float_add circuitpython (now_trigger (with_pir true quiet))
         (inject_Z (MOTION_TIMEOUT config))
  /\ float_add circuitpython (now_trigger (with_pir true quiet))
       (inject_Z (MOTION_TIMEOUT config)) = 400%Q
  /\ float_add cpython (now_trigger (with_pir true quiet))
       (inject_Z (MOTION_TIMEOUT config)) = 400%Q.
Proof.
  split; [reflexivity|].
  split; [|split; vm_compute; reflexivity].
  apply (active_sensor_rearms_the_deadline config circuitpython (with_pir true quiet)
           somebody_seen eq_refl).
Defined.

(** X6.  When [motion] is [True], a turn of [get_motion_state] makes it
    [False] exactly when the clock has passed the deadline the turn leaves
    in [motion_timeout] (re-armed or not), and leaves it [True] exactly
    when it has not. *)
Theorem motion_clears_only_after_the_deadline
  (cfg : Config) (platform : Platform) (i : Inputs) (w : World) :
  motion (garage_state w) = Some true ->
  (motion (garage_state (final (get_motion_state_iter cfg platform i w))) = Some false
   <-> (motion_timeout (garage_state (final (get_motion_state_iter cfg platform i w))) < now i)%Q)
  /\ (motion (garage_state (final (get_motion_state_iter cfg platform i w))) = Some true
      <-> (now i <= motion_timeout (garage_state (final (get_motion_state_iter cfg platform i w))))%Q).
Proof.
  intro M. pose proof (get_motion_state_eq cfg platform i w) as E. cbv zeta in E.
  rewrite E, M. cbn [final garage_state motion motion_timeout].
  rewrite <- Qltb_lt, <- Qltb_ge.
  destruct (Qltb _ (now i)), (pir_value i); repeat split; intro H;
    try reflexivity; try discriminate H.
Qed.

Lemma motion_clears_only_after_the_deadline_witness :
  motion (garage_state somebody_seen) = Some true
  /\ motion (garage_state (final (get_motion_state_iter config circuitpython quiet somebody_seen)))
     = Some true
  /\ motion (garage_state (final
       (get_motion_state_iter config circuitpython (with_now 401%Q quiet) somebody_seen))) = Some false.
Proof.
  split; [reflexivity|]. split.
  - apply (motion_clears_only_after_the_deadline config circuitpython quiet somebody_seen eq_refl).
    unfold Qle; cbn; lia.
  - apply (motion_clears_only_after_the_deadline config circuitpython (with_now 401%Q quiet)
             somebody_seen eq_refl).
    unfold Qlt; cbn; lia.
Defined.

(** X7.  When the position monitor is not paused and the distance sensor
    times out, the turn ends with [RuntimeError]: nothing catches it,
    [door_status] and the rest of the shared objects stay as they were and
    nothing is published. *)
Theorem door_monitor_sensor_timeout
  (cfg : Config) (platform : Platform) (i : Inputs) (w : World) :
  pause_door_check (garage_state w) = false ->
  distance i = TimedOut ->
  get_door_state_iter cfg platform i w = mkOut (Exc RuntimeError) w [].
Proof.
  intros P D. unfold get_door_state_iter. rewrite bind_get, P, D. reflexivity.
Qed.

Lemma door_monitor_sensor_timeout_witness :
  pause_door_check (garage_state door_open_no_motion) = false
  /\ distance (with_distance TimedOut quiet) = TimedOut
  /\ res (get_door_state_iter config circuitpython (with_distance TimedOut quiet)
            door_open_no_motion) = Exc RuntimeError.
Proof.
  split; [reflexivity|]. split; [reflexivity|].
  rewrite (door_monitor_sensor_timeout config circuitpython
             (with_distance TimedOut quiet) door_open_no_motion eq_refl eq_refl).
  reflexivity.
Defined.

(** X8.  Two unpaused turns of [get_door_state] in a row, with distances
    [d1] and [d2]: the second one enters [publish_to_mqtt] only when [d2]
    is on the other side of DOOR_DISTANCE than [d1]; readings that stay on
    one side are published once, by the first turn at most. *)
Theorem door_monitor_publishes_changes_only
  (cfg : Config) (platform : Platform) (i1 i2 : Inputs) (w : World) (d1 d2 : Q) :
  pause_door_check (garage_state w) = false ->
  distance i1 = Measured d1 ->
  distance i2 = Measured d2 ->
  count_ev is_publish_entry
    (events (get_door_state_iter cfg platform i2
               (final (get_door_state_iter cfg platform i1 w))))
  = (if Bool.eqb (Qltb d1 (inject_Z (DOOR_DISTANCE cfg)))
                 (Qltb d2 (inject_Z (DOOR_DISTANCE cfg)))
     then 0 else 1)%nat.
Proof.
  intros P D1 D2.
  assert (P1 : pause_door_check (garage_state (final (get_door_state_iter cfg platform i1 w)))
               = false).
  { rewrite <- P. apply (resume_keeps_pause cfg platform DoorLoop i1 w). reflexivity. }
  destruct (get_door_state_unpaused cfg platform i1 w d1 P D1) as (S1 & _).
  cbv zeta in S1.
  set (w1 := final (get_door_state_iter cfg platform i1 w)) in *.
  unfold get_door_state_iter at 1.
  rewrite bind_get, P1, D2. cbn [read_distance]. rewrite bind_ret_l.
  assert (K : (if Qltb d2 (inject_Z (DOOR_DISTANCE cfg))
               then set_door_status (PyStr "Open")
               else set_door_status (PyStr "Closed")) = set_door_status (classify cfg d2)).
  { unfold classify. destruct (Qltb d2 (inject_Z (DOOR_DISTANCE cfg))); reflexivity. }
  rewrite K, bind_set_door_status, bind_get. cbn [garage_state door_status].
  rewrite S1. unfold classify.
  destruct (Qltb d1 (inject_Z (DOOR_DISTANCE cfg))),
           (Qltb d2 (inject_Z (DOOR_DISTANCE cfg))); cbn [py_eq String.eqb Ascii.eqb Bool.eqb negb].
  1,4: rewrite bind_ret_l; reflexivity.
  all: rewrite bind_assoc; erewrite json_str by reflexivity; rewrite bind_ret_l.
  all: match goal with
       |- context [bind (publish_to_mqtt ?l ?t ?m) (fun _ => ret ?n) ?w'] =>
         destruct (publish_then_sleep l t m n w') as (_ & E & _);
         unfold count_ev; rewrite E; reflexivity
       end.
Qed.

Lemma door_monitor_publishes_changes_only_witness :
  pause_door_check (garage_state World_init) = false
  /\ distance still_open = Measured 50%Q
  /\ distance (with_distance (Measured 60%Q) quiet) = Measured 60%Q
  /\ count_ev is_publish_entry
       (events (get_door_state_iter config circuitpython
                  (with_distance (Measured 60%Q) quiet)
                  (final (get_door_state_iter config circuitpython still_open World_init))))
     = 0%nat.
Proof.
  split; [reflexivity|]. split; [reflexivity|]. split; [reflexivity|].
  rewrite (door_monitor_publishes_changes_only config circuitpython still_open
             (with_distance (Measured 60%Q) quiet) World_init 50%Q 60%Q
             eq_refl eq_refl eq_refl).
  reflexivity.
Defined.

(** X9.  Whatever the second half of [check_open_time] left in
    [door_status], the next unpaused turn of [get_door_state] that gets a
    distance overwrites it with "Open" or "Closed" and enters
    [publish_to_mqtt] once with the snapshot, even if the door did not
    move.  The snapshot reaches [mqtt_client.publish] once, unless the
    error path of the link restarts the device: then nothing is
    published. *)
Theorem door_monitor_overwrites_the_coroutine
  (cfg : Config) (platform : Platform) (i1 i2 : Inputs) (w : World) (d : Q) :
  pause_door_check (garage_state w) = false ->
  distance i2 = Measured d ->
  let o := get_door_state_iter cfg platform i2
             (final (check_open_time_after_sleep platform i1 w)) in
  let snap := PSnapshot (classify cfg d) (door_error (garage_state w))
                (motion (garage_state w)) in
  door_status (garage_state (final o)) = classify cfg d
  /\ filter is_publish_entry (events o)
     = [EvPublishToMqtt (MQTT_GARAGE_STATE platform) snap]
  /\ filter is_publish_call (events o)
     = (if error_path_restarts (link i2) then []
        else [EvClient (Publish (MQTT_GARAGE_STATE platform) snap) (final_r (link i2))])
  /\ (error_path_restarts (link i2) = true -> res o = Halt).
Proof.
  intros P D o snap.
  destruct (check_open_time_after_sleep_state platform i1 w) as (Er & S & _).
  cbv zeta in Er, S.
  pose proof (resume_frame cfg platform PolicyAfterSleep i1 w) as Fr.
  destruct Fr as ((Fp & _) & (Fm & _) & _).
  change (resume cfg platform PolicyAfterSleep i1 w)
    with (check_open_time_after_sleep platform i1 w) in Fp, Fm.
  assert (P1 : pause_door_check (garage_state (final (check_open_time_after_sleep platform i1 w)))
               = false) by (rewrite Fp; exact P).
  destruct (get_door_state_unpaused cfg platform i2 _ d P1 D) as (A & _ & B).
  destruct (get_door_state_unpaused_calls cfg platform i2 _ d P1 D) as (C & R).
  cbv zeta in A, B, C, R. fold o in A, B, C, R.
  rewrite S in B, C, R. rewrite Er, Fm in B, C, R.
  assert (N : py_eq (PyCoroutine "get_door_state") (classify cfg d) = false)
    by reflexivity.
  rewrite N in C, R. specialize (B N).
  fold snap in B, C, R.
  split; [exact A|]. split; [|split; [exact C|]].
  - unfold o, get_door_state_iter.
    rewrite bind_get, P1, D. cbn [read_distance]. rewrite bind_ret_l.
    assert (K : (if Qltb d (inject_Z (DOOR_DISTANCE cfg))
                 then set_door_status (PyStr "Open")
                 else set_door_status (PyStr "Closed")) = set_door_status (classify cfg d)).
    { unfold classify. destruct (Qltb d (inject_Z (DOOR_DISTANCE cfg))); reflexivity. }
    rewrite K, bind_set_door_status, bind_get. cbn [garage_state door_status].
    rewrite S, N. cbn [negb].
    destruct (classify_str cfg d) as [s Hs].
    rewrite bind_assoc, (json_str platform _ s) by exact Hs.
    rewrite bind_ret_l. cbn [door_error motion]. rewrite <- Hs, Er, Fm.
    match goal with
    |- context [bind (publish_to_mqtt ?l ?t ?m) (fun _ => ret ?n) ?w'] =>
      destruct (publish_then_sleep l t m n w') as (_ & E & _); exact E
    end.
  - intro H. rewrite R, publish_to_mqtt_res, H. reflexivity.
Qed.

Lemma door_monitor_overwrites_the_coroutine_witness :
  pause_door_check (garage_state door_open_no_motion) = false
  /\ distance still_open = Measured 50%Q
  /\ door_status (garage_state (final
       (get_door_state_iter config circuitpython still_open
          (final (check_open_time_after_sleep circuitpython quiet door_open_no_motion)))))
     = PyStr "Open"
  /\ filter is_publish_call
       (events (get_door_state_iter config circuitpython still_open
          (final (check_open_time_after_sleep circuitpython quiet door_open_no_motion))))
     = [EvClient (Publish (MQTT_GARAGE_STATE circuitpython)
                    (PSnapshot (PyStr "Open") false (Some false))) None].
Proof.
  split; [reflexivity|]. split; [reflexivity|].
  pose proof (door_monitor_overwrites_the_coroutine config circuitpython quiet still_open
                door_open_no_motion 50%Q eq_refl eq_refl) as H.
  cbv zeta in H. destruct H as (A & _ & B & _).
  split; [exact A | exact B].
Defined.

(** X10.  [update_rtc] sets the clock exactly once when it returns and not
    at all when it raises; it never changes [garage_state] or the relay,
    never publishes and never restarts the device. *)
Theorem update_rtc_sets_the_clock_iff_it_returns
  (platform : Platform) (i : Inputs) (w : World) :
  final (update_rtc platform i w) = w
  /\ count_ev is_rtc_set (events (update_rtc platform i w))
     = (match res (update_rtc platform i w) with Ret _ => 1 | _ => 0 end)%nat
  /\ count_ev is_publish_entry (events (update_rtc platform i w)) = 0%nat
  /\ is_halt (res (update_rtc platform i w)) = false.
Proof.
  rewrite update_rtc_eq.
  destruct (http_response i) as [e|r]; [repeat split|].
  destruct (struct_time_of platform r); repeat split.
Qed.

(** X11.  Whenever [update_rtc] sets the clock from an answer of the time
    service, the day of the year is -1, the weekday is between 0 (Monday)
    and 6 (Sunday), the daylight-saving flag is the one of the answer, and
    the hour is [int] of the characters 11 and 12 of the timestamp. *)
Theorem update_rtc_writes_a_well_formed_time
  (platform : Platform) (i : Inputs) (w : World) (r : Response) (t : struct_time) :
  http_response i = inr r ->
  In (EvRtcSet t) (events (update_rtc platform i w)) ->
  tm_yday t = (-1)%Z
  /\ (0 <= tm_wday t <= 6)%Z
  /\ dict_get (dayOfTheWeek r) day_lookup = Some (tm_wday t)
  /\ tm_isdst t = isDayLightSavingsTime r
  /\ int_of_str platform (substring 11 2 (currentDateTime r)) = Some (tm_hour t)
  /\ int_of_str platform (substring 0 4 (currentDateTime r)) = Some (tm_year t).
Proof.
  intros H I. rewrite update_rtc_eq, H in I.
  unfold struct_time_of in I.
  repeat match type of I with
         | context [int_of_str platform ?s] =>
             destruct (int_of_str platform s) eqn:?
         end;
    try (cbn in I; destruct I as [I|I]; [discriminate I | contradiction]).
  destruct (dict_get (dayOfTheWeek r) day_lookup) as [v|] eqn:D;
    [|cbn in I; destruct I as [I|I]; [discriminate I | contradiction]].
  cbn in I. destruct I as [I|[I|I]]; [discriminate I | | contradiction].
  injection I as <-. cbn.
  pose proof (day_lookup_range _ _ D). repeat split; auto; lia.
Qed.

Lemma update_rtc_writes_a_well_formed_time_witness :
  http_response (with_http (inr saturday_afternoon) quiet) = inr saturday_afternoon
  /\ In (EvRtcSet {| tm_year := 2022; tm_mon := 3; tm_mday := 5;
                     tm_hour := 14; tm_min := 7; tm_sec := 5;
                     tm_wday := 5; tm_yday := -1; tm_isdst := false |})
        (events (update_rtc circuitpython (with_http (inr saturday_afternoon) quiet)
                   World_init))
  /\ (0 <= 5 <= 6)%Z.
Proof.
  split; [reflexivity|].
  assert (I : In (EvRtcSet {| tm_year := 2022; tm_mon := 3; tm_mday := 5;
                              tm_hour := 14; tm_min := 7; tm_sec := 5;
                              tm_wday := 5; tm_yday := -1; tm_isdst := false |})
                 (events (update_rtc circuitpython
                            (with_http (inr saturday_afternoon) quiet) World_init)))
    by (right; left; reflexivity).
  split; [exact I|].
  apply (update_rtc_writes_a_well_formed_time circuitpython
           (with_http (inr saturday_afternoon) quiet) World_init saturday_afternoon
           _ eq_refl I).
Defined.

(** X12.  A timestamp of fewer than 18 characters leaves the slice for the
    seconds empty: where [int] of the empty string is a [ValueError],
    [update_rtc] ends with [ValueError] and does not set the clock. *)
Theorem update_rtc_short_timestamp
  (platform : Platform) (i : Inputs) (w : World) (r : Response) :
  http_response i = inr r ->
  (String.length (currentDateTime r) <= 17)%nat ->
  int_of_str platform EmptyString = None ->
  update_rtc platform i w = mkOut (Exc ValueError) w [EvHttpGet].
Proof.
  intros H L E. rewrite update_rtc_eq, H. unfold struct_time_of.
  rewrite (substring_short 17 2 (currentDateTime r) L), E.
  repeat match goal with
         | |- context [int_of_str platform (substring ?a ?b ?s)] =>
             destruct (int_of_str platform (substring a b s))
         end; reflexivity.
Qed.

Lemma update_rtc_short_timestamp_witness :
  http_response (with_http (inr cut_short) quiet) = inr cut_short
  /\ (String.length (currentDateTime cut_short) <= 17)%nat
  /\ int_of_str circuitpython EmptyString = None
  /\ res (update_rtc circuitpython (with_http (inr cut_short) quiet) World_init)
     = Exc ValueError.
Proof.
  split; [reflexivity|].
  assert (L : (String.length (currentDateTime cut_short) <= 17)%nat) by (cbn; lia).
  split; [exact L|]. split; [reflexivity|].
  rewrite (update_rtc_short_timestamp circuitpython (with_http (inr cut_short) quiet)
             World_init cut_short eq_refl L eq_refl).
  reflexivity.
Defined.

(** X13.  When the weekday of the answer is not one of the seven names of
    [day_lookup], spelled as there, [update_rtc] raises ([KeyError], or
    [ValueError] if a number failed before) and does not set the clock. *)
Theorem update_rtc_unknown_weekday
  (platform : Platform) (i : Inputs) (w : World) (r : Response) :
  http_response i = inr r ->
  dict_get (dayOfTheWeek r) day_lookup = None ->
  (res (update_rtc platform i w) = Exc KeyError
   \/ res (update_rtc platform i w) = Exc ValueError)
  /\ final (update_rtc platform i w) = w
  /\ events (update_rtc platform i w) = [EvHttpGet].
Proof.
  intros H D. rewrite update_rtc_eq, H. unfold struct_time_of. rewrite D.
  repeat match goal with
         | |- context [int_of_str platform ?s] => destruct (int_of_str platform s)
         end; cbn; repeat split; auto.
Qed.

Lemma update_rtc_unknown_weekday_witness :
  http_response (with_http (inr lower_case_day) quiet) = inr lower_case_day
  /\ dict_get (dayOfTheWeek lower_case_day) day_lookup = None
  /\ res (update_rtc circuitpython (with_http (inr lower_case_day) quiet) World_init)
     = Exc KeyError.
Proof.
  split; [reflexivity|]. split; [reflexivity|].
  destruct (update_rtc_unknown_weekday circuitpython
              (with_http (inr lower_case_day) quiet) World_init lower_case_day
              eq_refl eq_refl) as ([A|A] & _).
  - exact A.
  - discriminate A.
Defined.

(** X14.  [update_rtc] has one turn per start of the program: when that
    turn raises (the fetch failed, a number or the weekday did not parse),
    the clock is not set then and is not set at any later moment of the
    run; nothing tries again. *)
Theorem failed_clock_sync_is_never_retried
  (cfg : Config) (platform : Platform)
  (before_it after_it : list (nat * Inputs)) (n : nat) (i : Inputs) (e : Exn) :
  status (exec cfg platform before_it boot) = Running ->
  nth_error (pool (exec cfg platform before_it boot)) n = Some RtcStart ->
  res (update_rtc platform i (sys_world (exec cfg platform before_it boot))) = Exc e ->
  count_ev is_rtc_set
    (sys_log (exec cfg platform after_it
                (sys_resume cfg platform n i (exec cfg platform before_it boot))))
  = 0%nat.
Proof.
  intros Hs Hn He.
  set (s1 := exec cfg platform before_it boot) in *.
  destruct (sys_inv_exec cfg platform before_it boot sys_inv_boot)
    as (_ & _ & I3 & I4 & _).
  fold s1 in I3, I4.
  pose proof (count_pc_nth RtcStart n (pool s1) Hn) as P.
  destruct (sys_resume_counts cfg platform RtcStart n i s1 RtcStart Hs Hn eq_refl)
    as [_ C].
  destruct (sys_resume_fields cfg platform n i s1 RtcStart Hs Hn) as (_ & L & _).
  cbv zeta in L, C. cbn [resume] in L, C. rewrite He in C. cbn [goes_to] in C.
  rewrite one_refl in C.
  rewrite exec_rtc_done by lia.
  rewrite L, count_ev_app.
  assert (Z : count_ev is_rtc_set (events (update_rtc platform i (sys_world s1))) = 0%nat).
  { rewrite update_rtc_eq in He |- *.
    destruct (http_response i) as [x|r]; [reflexivity|].
    destruct (struct_time_of platform r); [reflexivity | discriminate He]. }
  lia.
Qed.

Lemma failed_clock_sync_is_never_retried_witness :
  status (exec config circuitpython [] boot) = Running
  /\ nth_error (pool (exec config circuitpython [] boot)) 4 = Some RtcStart
  /\ res (update_rtc circuitpython quiet (sys_world (exec config circuitpython [] boot)))
     = Exc OSError
  /\ count_ev is_rtc_set
       (sys_log (exec config circuitpython after_failed_fetch
                   (sys_resume config circuitpython 4 quiet
                      (exec config circuitpython [] boot)))) = 0%nat.
Proof.
  split; [reflexivity|]. split; [reflexivity|]. split; [reflexivity|].
  apply (failed_clock_sync_is_never_retried config circuitpython [] after_failed_fetch
           4%nat quiet OSError eq_refl eq_refl eq_refl).
Defined.

(** X15.  The callback acts on one message only: a message on another
    topic, or with a payload other than "True" (the "False" it publishes
    itself included), changes nothing, publishes nothing and creates no
    task. *)
Theorem message_ignores_other_traffic
  (platform : Platform) (lk : Link) (topic msg : string) (w : World) :
  topic <> MQTT_DOOR_REQUEST platform \/ msg <> "True"%string ->
  message platform lk topic msg w = mkOut (Ret tt) w [].
Proof.
  intro H. apply message_other.
  apply andb_false_iff.
  destruct H as [H|H]; [left | right]; apply String.eqb_neq; exact H.
Qed.

Lemma message_ignores_other_traffic_witness :
  (MQTT_DOOR_REQUEST circuitpython <> MQTT_DOOR_REQUEST circuitpython
   \/ "False"%string <> "True"%string)
  /\ events (message circuitpython link_down (MQTT_DOOR_REQUEST circuitpython)
               "False" World_init) = [].
Proof.
  assert (H : MQTT_DOOR_REQUEST circuitpython <> MQTT_DOOR_REQUEST circuitpython
              \/ "False"%string <> "True"%string) by (right; discriminate).
  split; [exact H|].
  rewrite (message_ignores_other_traffic circuitpython link_down
             (MQTT_DOOR_REQUEST circuitpython) "False" World_init H).
  reflexivity.
Defined.

(** X16.  A turn of [mqtt_client_loop] creates at most one
    [activate_opener] task for each request delivered during
    [mqtt_client.loop()], none when its error path restarted the device,
    and never changes [garage_state] or the relay itself. *)
Theorem loop_turn_creates_at_most_one_task_per_request
  (platform : Platform) (i : Inputs) (w : World) :
  (count_ev is_create_task (events (mqtt_client_loop_iter platform i w))
   <= if error_path_restarts (link i) then 0
      else List.length (filter (is_request platform) (inbound i)))%nat
  /\ final (mqtt_client_loop_iter platform i w) = w.
Proof.
  destruct (mqtt_client_loop_iter_creates platform i w) as (A & B & C).
  split; [|exact C].
  destruct (error_path_restarts (link i)); [rewrite B by reflexivity; lia | exact A].
Qed.

(** X17.  An hour is outside the close window exactly when it is after
    GARAGE_CLOSE_BEFORE and before GARAGE_CLOSE_AFTER.  So the window is
    always the complement of an interval: when GARAGE_CLOSE_AFTER is not
    at least two above GARAGE_CLOSE_BEFORE (as for "after 8, before 17")
    every hour is in the window. *)
Theorem close_window_is_the_complement_of_an_interval (cfg : Config) (hour : Z) :
  (in_close_window cfg hour = false
   <-> (GARAGE_CLOSE_BEFORE cfg < hour < GARAGE_CLOSE_AFTER cfg)%Z)
  /\ ((GARAGE_CLOSE_AFTER cfg <= GARAGE_CLOSE_BEFORE cfg + 1)%Z ->
      in_close_window cfg hour = true).
Proof.
  unfold in_close_window. split.
  - rewrite orb_false_iff, !Z.leb_gt. lia.
  - intro H. apply orb_true_iff. rewrite !Z.leb_le. lia.
Qed.

Lemma close_window_is_the_complement_of_an_interval_witness :
  (GARAGE_CLOSE_AFTER daytime <= GARAGE_CLOSE_BEFORE daytime + 1)%Z
  /\ in_close_window daytime 3 = true
  /\ in_close_window daytime 22 = true.
Proof.
  assert (H : (GARAGE_CLOSE_AFTER daytime <= GARAGE_CLOSE_BEFORE daytime + 1)%Z)
    by (cbn; lia).
  split; [exact H|]. split.
  - apply (close_window_is_the_complement_of_an_interval daytime 3). exact H.
  - apply (close_window_is_the_complement_of_an_interval daytime 22). exact H.
Defined.

(** X18.  The part of [check_open_time] before its sleep writes nothing:
    whatever the hour, the clock and the state, [garage_state] and the
    relay are as before, so it never clears [door_error]; it publishes
    nothing, does not restart the device, and the only exception it can
    end with is [NameError]. *)
Theorem check_open_time_first_half_writes_nothing
  (cfg : Config) (i : Inputs) (w : World) :
  final (check_open_time cfg i w) = w
  /\ count_ev is_publish_entry (events (check_open_time cfg i w)) = 0%nat
  /\ is_halt (res (check_open_time cfg i w)) = false
  /\ match res (check_open_time cfg i w) with
     | Exc e => e = NameError /\ door_error (garage_state w) = true
     | _ => True
     end.
Proof.
  split; [apply check_open_time_final|].
  rewrite check_open_time_eq.
  destruct (in_close_window cfg (rtc_hour i) && _); [|repeat split].
  destruct (door_error (garage_state w)); [repeat split|].
  destruct (motion (garage_state w)) as [[]|]; repeat split.
Qed.

(** X19.  No segment of any task changes [door_error]; so in every run of
    the program, at every moment, [door_error] is the [False] it was
    created with. *)
Theorem door_error_is_never_set
  (cfg : Config) (platform : Platform) (sched : list (nat * Inputs)) :
  door_error (garage_state (sys_world (exec cfg platform sched boot))) = false
  /\ (forall pc i w,
        door_error (garage_state (final (resume cfg platform pc i w)))
        = door_error (garage_state w)).
Proof.
  split.
  - rewrite exec_door_error. reflexivity.
  - intros pc i w. apply (resume_frame_status cfg platform pc i w).
Qed.

(** X20.  In every run, at every moment: the relay is high only while a
    call of [activate_opener] is suspended at its 2-second sleep, and
    [pause_door_check] is set only while a call of [activate_opener] is
    suspended at one of its two sleeps. *)
Theorem relay_and_pause_need_an_opener_in_flight
  (cfg : Config) (platform : Platform) (sched : list (nat * Inputs)) :
  (relay_value (sys_world (exec cfg platform sched boot)) = true ->
   (1 <= count_pc OpenerPulse (pool (exec cfg platform sched boot)))%nat)
  /\ (pause_door_check (garage_state (sys_world (exec cfg platform sched boot))) = true ->
      (1 <= count_pc OpenerPulse (pool (exec cfg platform sched boot))
            + count_pc OpenerSettle (pool (exec cfg platform sched boot)))%nat).
Proof.
  apply (actuator_inv_exec cfg platform sched boot actuator_inv_boot).
Qed.

Lemma relay_and_pause_need_an_opener_in_flight_witness :
  relay_value (sys_world (exec config circuitpython (firstn 5 failed_close) boot)) = true
  /\ (1 <= count_pc OpenerPulse
             (pool (exec config circuitpython (firstn 5 failed_close) boot)))%nat.
Proof.
  assert (H : relay_value (sys_world
                (exec config circuitpython (firstn 5 failed_close) boot)) = true)
    by reflexivity.
  split; [exact H|].
  apply (relay_and_pause_need_an_opener_in_flight config circuitpython
           (firstn 5 failed_close)). exact H.
Defined.

(** X21.  When [check_open_time] gets its turn before the loop of
    [get_door_state] had one, [door_status] is still [None]: whatever the
    hour, the turn returns at once without creating [activate_opener] and
    without touching anything, and in the rest of the run the policy has
    no further turn. *)
Theorem policy_before_first_classification_does_nothing
  (cfg : Config) (platform : Platform)
  (before_it after_it : list (nat * Inputs)) (n : nat) (i : Inputs) :
  status (exec cfg platform before_it boot) = Running ->
  nth_error (pool (exec cfg platform before_it boot)) n = Some PolicyStart ->
  count_pc DoorLoop (resumed (exec cfg platform before_it boot)) = 0%nat ->
  door_status (garage_state (sys_world (exec cfg platform before_it boot))) = PyNone
  /\ check_open_time cfg i (sys_world (exec cfg platform before_it boot))
     = mkOut (Ret Finished) (sys_world (exec cfg platform before_it boot)) []
  /\ sys_log (sys_resume cfg platform n i (exec cfg platform before_it boot))
     = sys_log (exec cfg platform before_it boot)
  /\ count_pc PolicyAfterSleep
       (resumed (exec cfg platform after_it
                   (sys_resume cfg platform n i (exec cfg platform before_it boot))))
     = 0%nat
  /\ count_pc PolicyStart
       (resumed (exec cfg platform after_it
                   (sys_resume cfg platform n i (exec cfg platform before_it boot))))
     = 1%nat.
Proof.
  intros Hs Hn Hd.
  set (s1 := exec cfg platform before_it boot) in *.
  destruct (sys_inv_exec cfg platform before_it boot sys_inv_boot)
    as (I1 & I2 & _).
  fold s1 in I1, I2.
  pose proof (count_pc_nth PolicyStart n (pool s1) Hn) as P.
  assert (S : door_status (garage_state (sys_world s1)) = PyNone).
  { unfold s1. rewrite exec_keeps_status; [reflexivity | | ]; fold s1; cbn; lia. }
  assert (E : check_open_time cfg i (sys_world s1)
              = mkOut (Ret Finished) (sys_world s1) []).
  { rewrite check_open_time_eq, S. cbn [py_eq]. rewrite andb_false_r. reflexivity. }
  destruct (sys_resume_counts cfg platform PolicyStart n i s1 PolicyStart Hs Hn eq_refl)
    as [R1 C1].
  destruct (sys_resume_counts cfg platform PolicyAfterSleep n i s1 PolicyStart Hs Hn eq_refl)
    as [R2 C2].
  destruct (sys_resume_fields cfg platform n i s1 PolicyStart Hs Hn) as (_ & L & _).
  cbv zeta in L, C1, C2, R1, R2. cbn [resume] in L, C1, C2. rewrite E in L, C1, C2.
  cbn [res events goes_to] in L, C1, C2.
  rewrite one_refl in C1, R1.
  change (one PolicyAfterSleep PolicyStart) with 0%nat in C2, R2.
  destruct (exec_policy_gone cfg platform after_it (sys_resume cfg platform n i s1))
    as [A B]; [lia | lia |].
  split; [exact S|]. split; [exact E|]. split; [rewrite L; apply app_nil_r|].
  split; lia.
Qed.

Lemma policy_before_first_classification_does_nothing_witness :
  status (exec config circuitpython [(0%nat, quiet); (1%nat, quiet)] boot) = Running
  /\ nth_error (pool (exec config circuitpython [(0%nat, quiet); (1%nat, quiet)] boot)) 5
     = Some PolicyStart
  /\ count_pc DoorLoop
       (resumed (exec config circuitpython [(0%nat, quiet); (1%nat, quiet)] boot)) = 0%nat
  /\ check_open_time config (with_hour 22 quiet)
       (sys_world (exec config circuitpython [(0%nat, quiet); (1%nat, quiet)] boot))
     = mkOut (Ret Finished)
         (sys_world (exec config circuitpython [(0%nat, quiet); (1%nat, quiet)] boot)) [].
Proof.
  split; [reflexivity|]. split; [reflexivity|]. split; [reflexivity|].
  apply (policy_before_first_classification_does_nothing config circuitpython
           [(0%nat, quiet); (1%nat, quiet)] [] 5%nat (with_hour 22 quiet)
           eq_refl eq_refl eq_refl).
Defined.

(** X22.  The part of [check_open_time] after its sleep, from any state:
    [door_status] becomes the coroutine object, [door_error] is left as it
    was, the pause flag and the relay too; where [json.dumps] of the
    instance raises, the call ends with [TypeError] before any call on the
    client, and where it gives a text, that text is handed to
    [publish_to_mqtt] for the garage-state topic and no snapshot is. *)
Theorem check_open_time_second_half_never_flags
  (cfg : Config) (platform : Platform) (i : Inputs) (w : World) :
  door_status (garage_state (final (check_open_time_after_sleep platform i w)))
  = PyCoroutine "get_door_state"
  /\ door_error (garage_state (final (check_open_time_after_sleep platform i w)))
     = door_error (garage_state w)
  /\ pause_door_check (garage_state (final (check_open_time_after_sleep platform i w)))
     = pause_door_check (garage_state w)
  /\ relay_value (final (check_open_time_after_sleep platform i w)) = relay_value w
  /\ count_ev is_snapshot (events (check_open_time_after_sleep platform i w)) = 0%nat
  /\ match json_dumps_instance platform with
     | None =>
         res (check_open_time_after_sleep platform i w) = Exc TypeError
         /\ events (check_open_time_after_sleep platform i w) = []
     | Some s =>
         filter is_publish_entry (events (check_open_time_after_sleep platform i w))
         = [EvPublishToMqtt (MQTT_GARAGE_STATE platform) (PText s)]
     end.
Proof.
  destruct (check_open_time_after_sleep_state platform i w) as (A & B & C).
  destruct (resume_frame cfg platform PolicyAfterSleep i w) as ((P & R) & _).
  cbn [resume] in P, R.
  split; [exact B|]. split; [exact A|]. split; [exact P|]. split; [exact R|].
  split; [exact C|].
  unfold check_open_time_after_sleep.
  destruct (json_dumps_instance platform) as [s|]; [|split; reflexivity].
  destruct (link i) as [[[]|] [[]|] [[]|]]; reflexivity.
Qed.
